(** * Verification of the TP/SL grid back-tester (7.2.py)

    A shallow embedding of [simulate_system_for_metrics] and
    [run_grid_search] together with the properties stated about them.

    Modelling conventions.
    - Python [float] values are modelled by exact rationals [Q]: rounding,
      overflow to infinity and NaN produced by arithmetic are not
      represented, so a comparison of a computed value with a threshold is
      the comparison of the exact values.  The NaN that the code assigns
      explicitly ([np.nan]) is [None] in an [option Q] field.
    - Exceptions are values: a call returns or raises ([Py.result]).  The
      simulator raises in two places, the true division by [start_equity]
      ([ZeroDivisionError]) and the float power of the CAGR
      ([OverflowError]).
    - Python [int] values are [Z]; loop indices of [range] are [nat].
    - The module-level constants of the script are gathered in [Config];
      [default_config] holds the values written in the source.
    - [np.sqrt] and the float power operator are library code; they are
      taken as a parameter ([FloatLib]) and every result holds for any
      implementation of them.  The power may raise, as Python's [**] does
      when its result is out of range.
    - Printing and progress files are not modelled. *)

From Stdlib Require Import ZArith QArith Qminmax Qabs Lqa List String Bool Lia.
Import ListNotations.
Local Open Scope Z_scope.
Local Open Scope Q_scope.

(** ** Python primitives *)

Module Py.

(** Exceptions the modelled code can raise. *)
Inductive exn : Set := ZeroDivisionError | OverflowError.

(** Outcome of a call: a returned value or a raised exception. *)
Inductive result (A : Type) : Type :=
| Returned (a : A)
| Raised (e : exn).
Arguments Returned {A} a.
Arguments Raised {A} e.

Definition bind {A B} (c : result A) (k : A -> result B) : result B :=
  match c with
  | Returned a => k a
  | Raised e => Raised e
  end.

Definition Qltb (a b : Q) : bool := negb (Qle_bool b a).

(** [max(a, b)]: keeps the first argument unless the second is greater. *)
Definition max (a b : Q) : Q := if Qltb a b then b else a.

(** [min(a, b)]: keeps the first argument unless the second is smaller. *)
Definition min (a b : Q) : Q := if Qltb b a then b else a.

(** [range(lo, hi)] *)
Definition range (lo hi : nat) : list nat := seq lo (hi - lo).

(** Float true division: raises on a zero divisor. *)
Definition truediv (a b : Q) : result Q :=
  if Qeq_bool b 0 then Raised ZeroDivisionError else Returned (a / b).

End Py.

Notation "x <- c ;; k" := (Py.bind c (fun x => k))
  (at level 61, c at next level, right associativity).

(** ** numpy array constructors used by the grid *)

Module Np.

(** [np.linspace(start, stop, num)] with the default [endpoint=True]:
    [num] evenly spaced samples, the last one set to [stop]. *)
Definition linspace (start stop : Q) (num : nat) : list Q :=
  let step := (stop - start) / inject_Z (Z.of_nat (num - 1)) in
  map (fun k => if (1 <? num)%nat && (k =? num - 1)%nat then stop
                else start + inject_Z (Z.of_nat k) * step)
      (seq 0 num).

(** [np.arange(lo, hi)] on integers. *)
Definition arange (lo hi : Z) : list Z :=
  map (fun k => (lo + Z.of_nat k)%Z) (seq 0 (Z.to_nat (hi - lo))).

End Np.

(** ** Data model *)

(** One row of the price frame; [date] is the day number of the index. *)
Record Bar : Set := mkBar {
  date : Z;
  Open : Q;
  High : Q;
  Low : Q;
  Close : Q
}.

Definition DataFrame := list Bar.

Definition bar0 : Bar := mkBar 0 0 0 0 0.

(** [df.iloc[i]] for an index in range. *)
Definition iloc (df : DataFrame) (i : nat) : Bar := nth i df bar0.

(** The module-level configuration constants. *)
Record Config : Set := mkConfig {
  TP_MIN : Q;
  TP_MAX : Q;
  TP_STEPS : nat;
  SL_MIN : Q;
  SL_MAX : Q;
  SL_STEPS : nat;
  HORIZON_MIN : Z;
  HORIZON_MAX : Z;
  START_CAPITAL : Q;
  FEE_RATE : Q;
  SPREAD_RATE : Q;
  AMBIGUOUS_FILL : string
}.

Definition default_config : Config := {|
  TP_MIN := 5 # 1000;
  TP_MAX := 40 # 100;
  TP_STEPS := 25;
  SL_MIN := 5 # 1000;
  SL_MAX := 20 # 100;
  SL_STEPS := 25;
  HORIZON_MIN := 1;
  HORIZON_MAX := 200;
  START_CAPITAL := 100000;
  FEE_RATE := 1 # 1000;
  SPREAD_RATE := 1 # 10000;
  AMBIGUOUS_FILL := "SL_FIRST"
|}.

Definition TOTAL_COST_FRAC (cfg : Config) : Q :=
  2 * FEE_RATE cfg + SPREAD_RATE cfg.

(** Library functions on floats that the script calls: [np.sqrt], and
    the power [x ** y] on Python floats, which raises [OverflowError]
    when the result is out of range. *)
Record FloatLib : Type := mkFloatLib {
  np_sqrt : Q -> Q;
  float_pow : Q -> Q -> Py.result Q
}.

(** An entry [[tp_level, sl_level, expiry]] of [open_pos]. *)
Record Position : Set := mkPosition {
  tp_level : Q;
  sl_level : Q;
  expiry : Z
}.

(** The accumulators carried through the two loops of the simulator. *)
Record Acc : Set := mkAcc {
  trades : Z;
  label1_count : Z;
  pnl_linear_sum : Q;
  equity_lin : Q;
  max_equity_lin : Q;
  dd_min : Q;
  mean_r : Q;
  M2 : Q;
  equity_comp : Q
}.

(** The dictionary returned by [simulate_system_for_metrics]. *)
Record SimulationResult : Set := mkResult {
  r_tp_frac : Q;
  r_sl_frac : Q;
  r_horizon_days : Z;
  r_trades : Z;
  r_years : Q;
  r_pnl_linear : Q;
  r_pnl_linear_per_year : Q;
  r_pnl_linear_pct : Q;
  r_pnl_linear_per_year_pct : Q;
  r_pnl_per_trade : Q;
  r_pnl_per_trade_pct : Q;
  r_label1_ratio : Q;
  r_max_drawdown : Q;
  r_max_drawdown_pct : Q;
  r_trades_per_year : option Q;
  r_sharpe_annual : option Q;
  r_calmar_ratio : option Q;
  r_equity_final : Q;
  r_compounded_return : Q;
  r_compounded_return_pct : Q;
  r_compounded_cagr : option Q;
  r_compounded_cagr_pct : option Q
}.

(** A row appended to [results] by the grid search: the statistics and
    the spread [tp_frac - sl_frac]. *)
Record GridRow : Set := mkRow {
  row_stats : SimulationResult;
  row_spread : Q
}.

(** ** The position simulator: [simulate_system_for_metrics] *)

Section Simulator.

Variable lib : FloatLib.
Variable cfg : Config.

(** Lines 263-274: the exit decision for one open position on bar [i]
    with high [hi] and low [lo]; [+1] is TP, [-1] is SL, [0] is none. *)
Definition decide_out (i : nat) (hi lo : Q) (p : Position) : Z :=
  let hit_tp := Qle_bool (tp_level p) hi in
  let hit_sl := Qle_bool lo (sl_level p) in
  let out := 0%Z in
  if hit_tp && hit_sl then
    (if String.eqb (AMBIGUOUS_FILL cfg) "TP_FIRST" then 1%Z else (-1)%Z)
  else if hit_sl then (-1)%Z
  else if hit_tp then 1%Z
  else if (expiry p <=? Z.of_nat i)%Z then 0%Z
  else out.

(** Lines 276: the position stays in [still_open]. *)
Definition stays_open (i : nat) (out : Z) (p : Position) : bool :=
  (out =? 0)%Z && (Z.of_nat i <? expiry p)%Z.

(** Lines 280-317: the accumulator update for a position closed with
    outcome [out]; [w] is the position weight. *)
Definition close_position (w tp_frac sl_frac : Q) (a : Acc) (out : Z) : Acc :=
  let '(r, trades1, label1_count1, counted_for_stats) :=
    if (out =? 1)%Z then
      (tp_frac, (trades a + 1)%Z, (label1_count a + 1)%Z, true)
    else if (out =? -1)%Z then
      (- sl_frac, (trades a + 1)%Z, label1_count a, true)
    else
      (0, trades a, label1_count a, false) in
  let eff_r := w * r in
  let eff_r := eff_r - w * TOTAL_COST_FRAC cfg in
  let pnl_linear_sum1 := pnl_linear_sum a + eff_r in
  let equity_lin1 := equity_lin a + eff_r in
  let equity_lin1 := Py.max equity_lin1 0 in
  let max_equity_lin1 := Py.max (max_equity_lin a) equity_lin1 in
  let dd_min1 := Py.min (dd_min a) (equity_lin1 - max_equity_lin1) in
  let '(mean_r1, M21) :=
    if counted_for_stats then
      let delta := eff_r - mean_r a in
      let mean_r1 := mean_r a + delta / inject_Z trades1 in
      let delta2 := eff_r - mean_r1 in
      (mean_r1, M2 a + delta2 * delta2)
    else (mean_r a, M2 a) in
  let equity_comp1 := equity_comp a * (1 + eff_r) in
  let equity_comp1 := Py.max equity_comp1 0 in
  mkAcc trades1 label1_count1 pnl_linear_sum1 equity_lin1 max_equity_lin1
        dd_min1 mean_r1 M21 equity_comp1.

(** Lines 261-317: the loop over [open_pos] on bar [i]. *)
Fixpoint scan_positions (w tp_frac sl_frac : Q) (i : nat) (hi lo : Q)
         (open_pos : list Position) (a : Acc) (still_open : list Position)
  : Acc * list Position :=
  match open_pos with
  | [] => (a, still_open)
  | p :: rest =>
      let out := decide_out i hi lo p in
      if stays_open i out p then
        scan_positions w tp_frac sl_frac i hi lo rest a (still_open ++ [p])
      else
        scan_positions w tp_frac sl_frac i hi lo rest
                       (close_position w tp_frac sl_frac a out) still_open
  end.

(** Lines 250-256: the position opened on bar [i].  The two levels are
    the exact products; the code holds them rounded to the nearest float,
    so a high or low within rounding of a level can be judged
    differently by it. *)
Definition new_position (df : DataFrame) (tp_frac sl_frac : Q) (h : Z)
           (i : nat) : Position :=
  let n := List.length df in
  let entry_price := Open (iloc df i) in
  let tp_level := entry_price * (1 + tp_frac) in
  let sl_level := entry_price * (1 - sl_frac) in
  let expiry := Z.min (Z.of_nat i + h - 1) (Z.of_nat n - 1) in
  mkPosition tp_level sl_level expiry.

(** Lines 250-319: the body of the loop over bars. *)
Definition bar_step (df : DataFrame) (w tp_frac sl_frac : Q) (h : Z)
           (s : Acc * list Position) (i : nat) : Acc * list Position :=
  let '(a, open_pos) := s in
  let open_pos := open_pos ++ [new_position df tp_frac sl_frac h i] in
  let hi := High (iloc df i) in
  let lo := Low (iloc df i) in
  scan_positions w tp_frac sl_frac i hi lo open_pos a [].

(** Lines 231-246: the accumulators before the first bar. *)
Definition init_acc (start_equity : Q) : Acc :=
  mkAcc 0 0 0 1 1 0 0 0 start_equity.

(** Line 225. *)
Definition clamp_horizon (horizon_days : Z) : Z := Z.max horizon_days 1.

(** The loop of line 249 run over the indices [idxs]. *)
Definition run_bars (df : DataFrame) (tp_frac sl_frac : Q) (horizon_days : Z)
           (start_equity : Q) (idxs : list nat) : Acc * list Position :=
  let h := clamp_horizon horizon_days in
  let w := 1 / inject_Z h in
  fold_left (bar_step df w tp_frac sl_frac h) idxs
            (init_acc start_equity, []).

(** Line 226. *)
Definition years_of (df : DataFrame) : Q :=
  let n := List.length df in
  let days := (date (iloc df (n - 1)) - date (iloc df 0))%Z in
  Py.max (inject_Z days / (36525 # 100)) (1 # 1000000000).

(** Lines 346-349: the CAGR, computed only above the guard; the power
    is the one operation of these lines that can raise. *)
Definition compounded_cagr_of (years compounded_return : Q)
  : Py.result (option Q) :=
  if Py.Qltb 0 years && Py.Qltb (- (999999 # 1000000)) compounded_return
  then
    p <- float_pow lib (1 + compounded_return) (1 / years) ;;
    Py.Returned (Some (p - 1))
  else Py.Returned None.

(** Lines 321-376: the derived statistics. *)
Definition finish (tp_frac sl_frac : Q) (h : Z) (years start_equity : Q)
           (a : Acc) : Py.result SimulationResult :=
  let pnl_linear := pnl_linear_sum a in
  let pnl_linear_per_year := pnl_linear / years in
  let pnl_linear_pct := pnl_linear * 100 in
  let pnl_linear_per_year_pct := pnl_linear_per_year * 100 in
  let label1_ratio :=
    if (0 <? trades a)%Z
    then inject_Z (label1_count a) / inject_Z (trades a) else 0 in
  let max_drawdown := - dd_min a in
  let max_drawdown := Py.min max_drawdown 1 in
  let max_drawdown_pct := max_drawdown * 100 in
  let trades_per_year :=
    if Py.Qltb 0 years then Some (inject_Z (trades a) / years) else None in
  let sharpe_annual :=
    if (1 <? trades a)%Z then
      let var := M2 a / inject_Z (trades a - 1) in
      let std_r := if Py.Qltb 0 var then np_sqrt lib var else 0 in
      if Py.Qltb (1 # 1000000000000) std_r then
        let sharpe_trade := mean_r a / std_r in
        option_map (fun t => sharpe_trade * np_sqrt lib t) trades_per_year
      else None
    else None in
  q <- Py.truediv (equity_comp a) start_equity ;;
  let compounded_return := q - 1 in
  compounded_cagr <- compounded_cagr_of years compounded_return ;;
  let calmar_ratio :=
    if Py.Qltb (1 # 1000000000) max_drawdown
    then Some (pnl_linear_per_year / max_drawdown) else None in
  Py.Returned
    (mkResult tp_frac sl_frac h (trades a) years
              pnl_linear pnl_linear_per_year pnl_linear_pct
              pnl_linear_per_year_pct
              (mean_r a) (mean_r a * 100)
              label1_ratio max_drawdown max_drawdown_pct
              trades_per_year sharpe_annual calmar_ratio
              (equity_comp a) compounded_return (compounded_return * 100)
              compounded_cagr
              (option_map (fun c => c * 100) compounded_cagr)).

(** [simulate_system_for_metrics]; [None] is the Python [None]. *)
Definition simulate_system_for_metrics (df : DataFrame)
           (tp_frac sl_frac : Q) (horizon_days : Z) (start_equity : Q)
  : Py.result (option SimulationResult) :=
  let n := List.length df in
  if (n <? 3)%nat then Py.Returned None
  else
    let h := clamp_horizon horizon_days in
    let years := years_of df in
    let '(a, _) :=
      run_bars df tp_frac sl_frac horizon_days start_equity (Py.range 1 n) in
    r <- finish tp_frac sl_frac h years start_equity a ;;
    Py.Returned (Some r).

End Simulator.

(** ** The grid search: [run_grid_search] *)

Section Grid.

Variable lib : FloatLib.
Variable cfg : Config.

(** Monadic [for] loop: stops at the first raised exception. *)
Fixpoint for_each {A S : Type} (f : S -> A -> Py.result S) (l : list A)
         (s : S) : Py.result S :=
  match l with
  | [] => Py.Returned s
  | x :: rest => s1 <- f s x ;; for_each f rest s1
  end.

Definition tp_values : list Q := Np.linspace (TP_MIN cfg) (TP_MAX cfg) (TP_STEPS cfg).
Definition sl_values : list Q := Np.linspace (SL_MIN cfg) (SL_MAX cfg) (SL_STEPS cfg).
Definition horizon_values : list Z :=
  Np.arange (HORIZON_MIN cfg) (HORIZON_MAX cfg + 1).

(** Line 389. *)
Definition total_combos : nat :=
  (List.length tp_values * List.length sl_values
   * List.length horizon_values)%nat.

(** Lines 398-443: one combination; the state is [(counter, results)]. *)
Definition grid_body (df : DataFrame) (tp sl : Q) (s : Z * list GridRow)
           (h : Z) : Py.result (Z * list GridRow) :=
  let '(counter, results) := s in
  let counter := (counter + 1)%Z in
  stats <- simulate_system_for_metrics lib cfg df tp sl h (START_CAPITAL cfg) ;;
  match stats with
  | None => Py.Returned (counter, results)
  | Some st =>
      Py.Returned
        (counter, results ++ [mkRow st (r_tp_frac st - r_sl_frac st)])
  end.

(** Lines 395-453: the three nested loops. *)
Definition grid_loop (df : DataFrame) : Py.result (Z * list GridRow) :=
  for_each
    (fun s tp =>
       for_each
         (fun s sl => for_each (grid_body df tp sl) horizon_values s)
         sl_values s)
    tp_values (0%Z, []).

(** [run_grid_search]: the rows of the returned frame (none when the
    frame is empty). *)
Definition run_grid_search (df : DataFrame) : Py.result (list GridRow) :=
  s <- grid_loop df ;; Py.Returned (snd s).

End Grid.

(** ** The sequence of resolutions of a run *)

Section Trace.

Variable cfg : Config.

(** Positions of [open_pos] closed on bar [i], with their outcome, in
    the order in which the loop closes them. *)
Definition closed_on (i : nat) (hi lo : Q) (open_pos : list Position)
  : list Z :=
  map (decide_out cfg i hi lo)
      (filter (fun p => negb (stays_open i (decide_out cfg i hi lo p) p))
              open_pos).

(** Positions of [open_pos] carried over to the next bar. *)
Definition kept_on (i : nat) (hi lo : Q) (open_pos : list Position)
  : list Position :=
  filter (fun p => stays_open i (decide_out cfg i hi lo p) p) open_pos.

(** Outcomes of all resolutions over the bars [idxs], in order. *)
Fixpoint resolutions (df : DataFrame) (tp_frac sl_frac : Q) (h : Z)
         (idxs : list nat) (open_pos : list Position) : list Z :=
  match idxs with
  | [] => []
  | i :: rest =>
      let open_pos := open_pos ++ [new_position df tp_frac sl_frac h i] in
      let hi := High (iloc df i) in
      let lo := Low (iloc df i) in
      closed_on i hi lo open_pos
      ++ resolutions df tp_frac sl_frac h rest (kept_on i hi lo open_pos)
  end.

(** The content of [open_pos] after the bars [idxs]. *)
Fixpoint open_after (df : DataFrame) (tp_frac sl_frac : Q) (h : Z)
         (idxs : list nat) (open_pos : list Position) : list Position :=
  match idxs with
  | [] => open_pos
  | i :: rest =>
      let open_pos := open_pos ++ [new_position df tp_frac sl_frac h i] in
      let hi := High (iloc df i) in
      let lo := Low (iloc df i) in
      open_after df tp_frac sl_frac h rest (kept_on i hi lo open_pos)
  end.

(** All resolutions of one call of the simulator. *)
Definition run_resolutions (df : DataFrame) (tp_frac sl_frac : Q)
           (horizon_days : Z) : list Z :=
  resolutions df tp_frac sl_frac (clamp_horizon horizon_days)
              (Py.range 1 (List.length df)) [].

(** Number of TP and SL resolutions in a sequence of outcomes. *)
Definition count_tp_sl (outs : list Z) : Z :=
  Z.of_nat (List.length (filter (fun o => (o =? 1)%Z || (o =? -1)%Z) outs)).

(** Number of FLAT resolutions in a sequence of outcomes. *)
Definition count_flat (outs : list Z) : Z :=
  Z.of_nat (List.length (filter (fun o => (o =? 0)%Z) outs)).


End Trace.

(** ** A concrete float library for running examples

    Square root rounded down to six decimals; power by its first-order
    expansion around base one, raising where the exact power is certainly
    out of the float range: for [x > 1], [x ** y >= exp (y * (x - 1) / x)],
    which exceeds the largest float [< 2 ^ 1024] once
    [y * (x - 1) / x >= 1024].  The examples only need some instance. *)

Definition sqrt_down (x : Q) : Q :=
  Z.sqrt (Qnum x * Z.pos (Qden x) * 1000000000000) # (Qden x * 1000000).

Definition pow_first_order (x y : Q) : Py.result Q :=
  if Py.Qltb 1 x && Qle_bool 1024 (y * (x - 1) / x)
  then Py.Raised Py.OverflowError
  else Py.Returned (1 + y * (x - 1)).

Definition example_lib : FloatLib := mkFloatLib sqrt_down pow_first_order.

(** ** Spec-level vocabulary *)

(** The raw return of an outcome code as the specification words it:
    [tp_frac] on TP, [-sl_frac] on SL, zero on FLAT. *)
Definition raw_return (tp_frac sl_frac : Q) (out : Z) : Q :=
  if (out =? 1)%Z then tp_frac
  else if (out =? -1)%Z then - sl_frac
  else 0.

(** The weighted return net of cost as the specification words it. *)
Definition eff_return (cfg : Config) (w tp_frac sl_frac : Q) (out : Z) : Q :=
  w * raw_return tp_frac sl_frac out - w * TOTAL_COST_FRAC cfg.

(** Sum of the net returns of the TP and SL resolutions among [outs],
    starting from [s0]. *)
Definition traded_returns_from (cfg : Config) (w tp_frac sl_frac : Q)
           (outs : list Z) (s0 : Q) : Q :=
  fold_left (fun s out => if (out =? 1)%Z || (out =? -1)%Z
                          then s + eff_return cfg w tp_frac sl_frac out
                          else s)
            outs s0.

(** ** Example inputs *)

(** Three quiet bars: nothing triggers, every position expires FLAT. *)
Definition quiet3 : DataFrame :=
  [mkBar 0 100 100 100 100; mkBar 1 100 100 100 100;
   mkBar 2 100 100 100 100].

(** Three bars whose lows crash through any stop. *)
Definition crash3 : DataFrame :=
  [mkBar 0 100 100 100 100; mkBar 1 100 100 (1 # 10) 100;
   mkBar 2 100 100 (1 # 10) 100].

(** Three bars stamped with the same date, the second one a rally. *)
Definition same_day3 : DataFrame :=
  [mkBar 0 100 100 100 100; mkBar 0 100 120 100 100;
   mkBar 0 100 100 100 100].

(** Four bars: a quiet one, a rally, then a bar that spans both exits. *)
Definition swing4 : DataFrame :=
  [mkBar 0 100 100 100 100; mkBar 1 100 100 100 100;
   mkBar 2 100 200 100 100; mkBar 5 100 300 1 100].

(** A small grid whose TP bounds are reversed and whose horizon range is
    non-positive. *)
Definition reversed_config : Config := {|
  TP_MIN := 40 # 100;
  TP_MAX := 5 # 1000;
  TP_STEPS := 2;
  SL_MIN := 5 # 1000;
  SL_MAX := 20 # 100;
  SL_STEPS := 2;
  HORIZON_MIN := -1;
  HORIZON_MAX := 0;
  START_CAPITAL := 100000;
  FEE_RATE := 1 # 1000;
  SPREAD_RATE := 1 # 10000;
  AMBIGUOUS_FILL := "SL_FIRST"
|}.

(** The default constants with the optimistic fill policy. *)
Definition tp_first_config : Config := {|
  TP_MIN := 5 # 1000;
  TP_MAX := 40 # 100;
  TP_STEPS := 25;
  SL_MIN := 5 # 1000;
  SL_MAX := 20 # 100;
  SL_STEPS := 25;
  HORIZON_MIN := 1;
  HORIZON_MAX := 200;
  START_CAPITAL := 100000;
  FEE_RATE := 1 # 1000;
  SPREAD_RATE := 1 # 10000;
  AMBIGUOUS_FILL := "TP_FIRST"
|}.

(** The result of a call that returned one, [d] otherwise. *)
Definition returned_result (d : SimulationResult)
           (c : Py.result (option SimulationResult)) : SimulationResult :=
  match c with
  | Py.Returned (Some r) => r
  | _ => d
  end.

Definition blank_result : SimulationResult :=
  mkResult 0 0 0 0 0 0 0 0 0 0 0 0 0 0 None None None 0 0 0 None None.

(** [swing4] with TP 10%, SL 10%, horizon 1: one FLAT, one TP, one SL. *)
Definition swing4_result : SimulationResult :=
  Eval vm_compute in
    returned_result blank_result
      (simulate_system_for_metrics example_lib default_config swing4
                                   (1 # 10) (1 # 10) 1 100000).

(** [crash3] with SL 99.7899%, horizon 1: two SL exits that leave a
    millionth of a millionth of the capital. *)
Definition crash3_result : SimulationResult :=
  Eval vm_compute in
    returned_result blank_result
      (simulate_system_for_metrics example_lib default_config crash3
                                   (1 # 10) (997899 # 1000000) 1 100000).

(** [quiet3] with TP 10%, SL 10%, horizon 1: two FLAT expiries. *)
Definition quiet3_result : SimulationResult :=
  Eval vm_compute in
    returned_result blank_result
      (simulate_system_for_metrics example_lib default_config quiet3
                                   (1 # 10) (1 # 10) 1 100000).

(** ** The day-by-day simulator: [simulate_daily_realized_pnl_parallel] *)

(** [a[i] = f(a[i])] on an array; the loops only use indices in range. *)
Fixpoint array_update {A : Type} (i : nat) (f : A -> A) (l : list A)
  : list A :=
  match l, i with
  | [], _ => []
  | x :: rest, O => f x :: rest
  | x :: rest, S j => x :: array_update j f rest
  end.

(** [out == k] for an [out] that is an integer or [None]. *)
Definition out_is (out : option Z) (k : Z) : bool :=
  match out with
  | Some o => (o =? k)%Z
  | None => false
  end.

(** Lines 520-536: the decision [(out, scen)]; both start as [None]. *)
Definition decide_daily (cfg : Config) (i : nat) (hi lo : Q) (p : Position)
  : option Z * option string :=
  let hit_tp := Qle_bool (tp_level p) hi in
  let hit_sl := Qle_bool lo (sl_level p) in
  if hit_tp && hit_sl then
    let out :=
      if String.eqb (AMBIGUOUS_FILL cfg) "TP_FIRST" then 1%Z else (-1)%Z in
    (Some out, Some (if (out =? 1)%Z then "TP" else "SL")%string)
  else if hit_sl then (Some (-1)%Z, Some "SL"%string)
  else if hit_tp then (Some 1%Z, Some "TP"%string)
  else if (expiry p <=? Z.of_nat i)%Z then (Some 0%Z, Some "FLAT"%string)
  else (None, None).

(** Line 542. *)
Definition daily_raw_return (tp_frac sl_frac : Q) (out : option Z) : Q :=
  if out_is out 1 then tp_frac
  else if out_is out (-1) then - sl_frac
  else 0.

(** Lines 519-547: the loop over [open_pos] on bar [i]; the state is the
    pair of arrays [(daily_realized, daily_scenario)] and the list
    [still]. *)
Fixpoint daily_scan (cfg : Config) (w tp_frac sl_frac : Q) (i : nat)
         (hi lo : Q) (open_pos : list Position)
         (arrays : list Q * list (option string)) (still : list Position)
  : (list Q * list (option string)) * list Position :=
  match open_pos with
  | [] => (arrays, still)
  | p :: rest =>
      let '(out, scen) := decide_daily cfg i hi lo p in
      if out_is out 0 && (Z.of_nat i <? expiry p)%Z then
        daily_scan cfg w tp_frac sl_frac i hi lo rest arrays (still ++ [p])
      else
        let r := daily_raw_return tp_frac sl_frac out in
        let eff_r := w * r in
        let eff_r := eff_r - w * TOTAL_COST_FRAC cfg in
        let '(daily_realized, daily_scenario) := arrays in
        daily_scan cfg w tp_frac sl_frac i hi lo rest
                   (array_update i (fun x => x + eff_r) daily_realized,
                    array_update i (fun _ => scen) daily_scenario)
                   still
  end.

(** Lines 509-549: the body of the loop over bars. *)
Definition daily_bar (cfg : Config) (df : DataFrame) (w tp_frac sl_frac : Q)
           (h : Z)
           (s : (list Q * list (option string)) * list Position) (i : nat)
  : (list Q * list (option string)) * list Position :=
  let '(arrays, open_pos) := s in
  let open_pos := open_pos ++ [new_position df tp_frac sl_frac h i] in
  let hi := High (iloc df i) in
  let lo := Low (iloc df i) in
  daily_scan cfg w tp_frac sl_frac i hi lo open_pos arrays [].

(** The loop of line 508 over the indices [idxs], from the arrays of
    lines 505-506. *)
Definition daily_loop (cfg : Config) (df : DataFrame) (tp_frac sl_frac : Q)
           (horizon_days : Z) (idxs : list nat)
  : (list Q * list (option string)) * list Position :=
  let n := List.length df in
  let h := clamp_horizon horizon_days in
  let w := 1 / inject_Z h in
  fold_left (daily_bar cfg df w tp_frac sl_frac h) idxs
            ((repeat 0 n, repeat (Some ""%string) n), []).

(** [simulate_daily_realized_pnl_parallel]: the values of the two
    returned series (both empty for fewer than three rows). *)
Definition simulate_daily_realized_pnl_parallel (cfg : Config)
           (df : DataFrame) (tp_frac sl_frac : Q) (horizon_days : Z)
  : list Q * list (option string) :=
  let n := List.length df in
  if (n <? 3)%nat then ([], [])
  else fst (daily_loop cfg df tp_frac sl_frac horizon_days (Py.range 1 n)).

(** ** Curves and metrics exported for the best system *)



(** [realized_daily.cumsum()] (line 573), from the running sum [acc]. *)
Fixpoint cumsum_from (acc : Q) (xs : list Q) : list Q :=
  match xs with
  | [] => []
  | x :: rest => (acc + x) :: cumsum_from (acc + x) rest
  end.

(** Line 574: the linear cumulative curve in percent. *)
Definition strat_lin_pct (realized : list Q) : list Q :=
  map (fun c => c * 100) (cumsum_from 0 realized).

(** Line 1395 of [export_metrics_json]: the ["max_drawdown"] entry. *)
Definition metrics_max_drawdown (best : SimulationResult) : Q :=
  Py.min 0 (Py.max (- (100)) (r_max_drawdown_pct best)).

(** Lines 1384-1421: the ["return_drawdown_ratio"] entry; the outer
    [None] is a key that is not written, the inner one a NaN. *)
Definition metrics_return_drawdown_ratio (best : SimulationResult)
  : option (option Q) :=
  let best_cagr := r_compounded_cagr_pct best in
  if negb (Qeq_bool (metrics_max_drawdown best) 0) then
    Some (option_map (fun c => Qabs (c / metrics_max_drawdown best))
                     best_cagr)
  else None.

(** ** The exported trades: [export_best_system_trades] *)

(** An entry of the ["trades"] list; the date is kept as a day number. *)
Record TradeRecord : Set := mkTrade {
  trade_date : Z;
  trade_pnl : Q;
  trade_pnl_pct : Q;
  trade_scenario : string
}.

(** [series[d]] on a series with index [index]: the value at the first
    position labelled [d], [None] when [d] is not in the index.  (With a
    date that occurs twice pandas returns a sub-series instead; the
    properties below assume distinct dates.) *)
Fixpoint series_get (index : list Z) (values : list Q) (d : Z) : option Q :=
  match index, values with
  | d0 :: index1, v :: values1 =>
      if (d0 =? d)%Z then Some v else series_get index1 values1 d
  | _, _ => None
  end.

(** Lines 1639-1653: the list written under ["trades"], [None] when the
    function returns before writing. *)
Definition best_system_trades (cfg : Config) (df : DataFrame)
           (tp_frac sl_frac : Q) (horizon_days : Z)
  : option (list TradeRecord) :=
  let '(realized_daily, scen_daily) :=
    simulate_daily_realized_pnl_parallel cfg df tp_frac sl_frac
                                         horizon_days in
  let index := map date df in
  match realized_daily, scen_daily with
  | [], _ | _, [] => None
  | _, _ =>
      Some
        (flat_map
           (fun item : Z * option string =>
              let '(d, scen_value) := item in
              match scen_value with
              | Some s =>
                  if String.eqb s "TP" || String.eqb s "SL" then
                    match series_get index realized_daily d with
                    | Some pnl => [mkTrade d pnl (pnl * 100) s]
                    | None => []
                    end
                  else []
              | None => []
              end)
           (combine index scen_daily))
  end.

(** ** The candidate filter: [mark_cnn_candidates] *)

Definition CNN_MIN_TRADES : Z := 800.
Definition CNN_MIN_LABEL1 : Q := 35 # 100.
Definition CNN_MAX_LABEL1 : Q := 65 # 100.
Definition CNN_MIN_SPREAD : Q := 1 # 100.
Definition CNN_CAGR_TOLERANCE : Q := 2 # 100.

(** A row of the frame returned by [mark_cnn_candidates]. *)
Record MarkedRow : Set := mkMarked {
  marked_row : GridRow;
  is_cnn_candidate : bool;
  cnn_rank_score : option Q
}.

(** Lines 130-138: the mask on one row; a comparison with NaN is false. *)
Definition cnn_mask (asset_cagr : Q) (row : GridRow) : bool :=
  let st := row_stats row in
  let cond_trades := (CNN_MIN_TRADES <=? r_trades st)%Z in
  let cond_label_balance :=
    Qle_bool CNN_MIN_LABEL1 (r_label1_ratio st)
    && Qle_bool (r_label1_ratio st) CNN_MAX_LABEL1 in
  let cond_spread := Qle_bool CNN_MIN_SPREAD (row_spread row) in
  let min_allowed_cagr := asset_cagr - CNN_CAGR_TOLERANCE in
  let cond_cagr :=
    match r_compounded_cagr st with
    | Some c => Qle_bool min_allowed_cagr c
    | None => false
    end in
  let cond_non_nan :=
    match r_compounded_cagr st with
    | Some _ => true
    | None => false
    end in
  cond_trades && cond_label_balance && cond_spread && cond_cagr
  && cond_non_nan.

(** [mark_cnn_candidates] on the rows of a grid frame. *)
Definition mark_cnn_candidates (rows : list GridRow) (asset_cagr : Q)
  : list MarkedRow :=
  map (fun row =>
         let mask := cnn_mask asset_cagr row in
         mkMarked row mask
                  (if mask then r_compounded_cagr (row_stats row) else None))
      rows.

(** Lines 1796 and 1883: the rows kept for the candidates file, before
    they are sorted. *)
Definition cnn_candidates (marked : list MarkedRow) : list MarkedRow :=
  filter is_cnn_candidate marked.

(** ** Vocabulary for the further properties *)


(** Number of TP resolutions and of SL resolutions among [outs]. *)
Definition count_tp (outs : list Z) : Z :=
  Z.of_nat (List.length (filter (fun o => (o =? 1)%Z) outs)).

Definition count_sl (outs : list Z) : Z :=
  Z.of_nat (List.length (filter (fun o => (o =? -1)%Z) outs)).

(** The configuration with another fill policy. *)
Definition with_policy (cfg : Config) (policy : string) : Config :=
  mkConfig (TP_MIN cfg) (TP_MAX cfg) (TP_STEPS cfg)
           (SL_MIN cfg) (SL_MAX cfg) (SL_STEPS cfg)
           (HORIZON_MIN cfg) (HORIZON_MAX cfg) (START_CAPITAL cfg)
           (FEE_RATE cfg) (SPREAD_RATE cfg) policy.

(** The combinations in the order of the three nested loops. *)
Definition grid_combos (cfg : Config) : list (Q * Q * Z) :=
  flat_map (fun tp =>
              flat_map (fun sl => map (fun h => (tp, sl, h))
                                      (horizon_values cfg))
                       (sl_values cfg))
           (tp_values cfg).

(** The code with which the grid simulator closes, on its opening bar
    [i], the position opened there. *)
Definition opening_day_code (cfg : Config) (df : DataFrame)
           (tp_frac sl_frac : Q) (i : nat) : Z :=
  decide_out cfg i (High (iloc df i)) (Low (iloc df i))
             (new_position df tp_frac sl_frac 1 i).

(** Sum of a list of floats, left to right. *)
Definition total (xs : list Q) : Q := fold_left Qplus xs 0.

(** [swing4] with TP 10%, SL 10%, horizon 5: the position opened on the
    quiet bar is closed by TP on the next one. *)
Definition swing4_h5_result : SimulationResult :=
  Eval vm_compute in
    returned_result blank_result
      (simulate_system_for_metrics example_lib default_config swing4
                                   (1 # 10) (1 # 10) 5 100000).

(** [swing4] with TP 10%, SL 10%, horizon 1 under the optimistic
    policy: the last bar, which spans both exits, is a TP. *)
Definition swing4_tp_first_result : SimulationResult :=
  Eval vm_compute in
    returned_result blank_result
      (simulate_system_for_metrics example_lib tp_first_config swing4
                                   (1 # 10) (1 # 10) 1 100000).

(** The rows of the grid frame of [quiet3] under [reversed_config]. *)
Definition quiet3_grid_rows : list GridRow :=
  Eval vm_compute in
    match run_grid_search example_lib reversed_config quiet3 with
    | Py.Returned rows => rows
    | Py.Raised _ => []
    end.

(** ** Facts about the Python primitives *)

Lemma Qltb_true (a b : Q) : Py.Qltb a b = true <-> a < b.
Proof.
  unfold Py.Qltb. rewrite negb_true_iff.
  destruct (Qle_bool b a) eqn:E.
  - apply Qle_bool_iff in E. split; [discriminate | intro H].
    exfalso. apply (Qlt_not_le _ _ H E).
  - split; [intros _ | reflexivity].
    apply Qnot_le_lt. intro H. apply Qle_bool_iff in H. congruence.
Qed.

Lemma Qltb_false (a b : Q) : Py.Qltb a b = false <-> b <= a.
Proof.
  unfold Py.Qltb. rewrite negb_false_iff. apply Qle_bool_iff.
Qed.

Lemma pymax_ge_r (a b : Q) : b <= Py.max a b.
Proof.
  unfold Py.max. destruct (Py.Qltb a b) eqn:E.
  - apply Qle_refl.
  - now apply Qltb_false.
Qed.

Lemma truediv_returns (a b : Q) :
  ~ b == 0 -> Py.truediv a b = Py.Returned (a / b).
Proof.
  intro H. unfold Py.truediv.
  destruct (Qeq_bool b 0) eqn:E; [| reflexivity].
  apply Qeq_bool_iff in E. contradiction.
Qed.

Lemma truediv_raises (a b : Q) :
  b == 0 -> Py.truediv a b = Py.Raised Py.ZeroDivisionError.
Proof.
  intro H. unfold Py.truediv. apply Qeq_bool_iff in H. now rewrite H.
Qed.

Lemma range_length (lo hi : nat) : List.length (Py.range lo hi) = (hi - lo)%nat.
Proof. apply length_seq. Qed.

Lemma linspace_length (a b : Q) (n : nat) : List.length (Np.linspace a b n) = n.
Proof. unfold Np.linspace. now rewrite length_map, length_seq. Qed.

Lemma arange_length (lo hi : Z) :
  List.length (Np.arange lo hi) = Z.to_nat (hi - lo).
Proof. unfold Np.arange. now rewrite length_map, length_seq. Qed.

(** ** The exit decision *)

Section Decision.

Variable cfg : Config.

(** The decision is one of the three codes. *)
Lemma decide_out_range (i : nat) (hi lo : Q) (p : Position) :
  decide_out cfg i hi lo p = 1%Z \/ decide_out cfg i hi lo p = (-1)%Z
  \/ decide_out cfg i hi lo p = 0%Z.
Proof.
  unfold decide_out.
  destruct (Qle_bool (tp_level p) hi), (Qle_bool lo (sl_level p)); simpl;
    try destruct (String.eqb _ _); try destruct (_ <=? _)%Z; auto.
Qed.

Lemma decide_out_both (i : nat) (hi lo : Q) (p : Position) :
  tp_level p <= hi -> lo <= sl_level p ->
  decide_out cfg i hi lo p
  = if String.eqb (AMBIGUOUS_FILL cfg) "TP_FIRST" then 1%Z else (-1)%Z.
Proof.
  intros Ht Hs. unfold decide_out.
  apply Qle_bool_iff in Ht. apply Qle_bool_iff in Hs.
  now rewrite Ht, Hs.
Qed.

Lemma decide_out_tp_only (i : nat) (hi lo : Q) (p : Position) :
  tp_level p <= hi -> ~ lo <= sl_level p ->
  decide_out cfg i hi lo p = 1%Z.
Proof.
  intros Ht Hs. unfold decide_out.
  apply Qle_bool_iff in Ht. rewrite Ht.
  destruct (Qle_bool lo (sl_level p)) eqn:E; [| reflexivity].
  apply Qle_bool_iff in E. contradiction.
Qed.

Lemma decide_out_sl_only (i : nat) (hi lo : Q) (p : Position) :
  ~ tp_level p <= hi -> lo <= sl_level p ->
  decide_out cfg i hi lo p = (-1)%Z.
Proof.
  intros Ht Hs. unfold decide_out.
  apply Qle_bool_iff in Hs. rewrite Hs.
  destruct (Qle_bool (tp_level p) hi) eqn:E; [| reflexivity].
  apply Qle_bool_iff in E. contradiction.
Qed.

Lemma decide_out_neither (i : nat) (hi lo : Q) (p : Position) :
  ~ tp_level p <= hi -> ~ lo <= sl_level p ->
  decide_out cfg i hi lo p = 0%Z.
Proof.
  intros Ht Hs. unfold decide_out.
  destruct (Qle_bool (tp_level p) hi) eqn:E1.
  { apply Qle_bool_iff in E1. contradiction. }
  destruct (Qle_bool lo (sl_level p)) eqn:E2.
  { apply Qle_bool_iff in E2. contradiction. }
  simpl. now destruct (_ <=? _)%Z.
Qed.

(** A position with a non-zero decision never stays open. *)
Lemma stays_open_nonzero (i : nat) (out : Z) (p : Position) :
  out <> 0%Z -> stays_open i out p = false.
Proof.
  intro H. unfold stays_open. apply Z.eqb_neq in H. now rewrite H.
Qed.

Lemma stays_open_true (i : nat) (out : Z) (p : Position) :
  stays_open i out p = true <-> out = 0%Z /\ (Z.of_nat i < expiry p)%Z.
Proof.
  unfold stays_open. rewrite andb_true_iff, Z.eqb_eq, Z.ltb_lt. tauto.
Qed.

(** One step of the scan, written with the two helpers of [Trace]. *)
Lemma scan_positions_cons (w tp_frac sl_frac : Q) (i : nat) (hi lo : Q)
      (p : Position) (rest : list Position) (a : Acc)
      (still_open : list Position) :
  scan_positions cfg w tp_frac sl_frac i hi lo (p :: rest) a still_open
  = if stays_open i (decide_out cfg i hi lo p) p
    then scan_positions cfg w tp_frac sl_frac i hi lo rest a
                        (still_open ++ [p])
    else scan_positions cfg w tp_frac sl_frac i hi lo rest
           (close_position cfg w tp_frac sl_frac a
                           (decide_out cfg i hi lo p))
           still_open.
Proof. reflexivity. Qed.

End Decision.

(** ** One resolution *)

Section Resolution.

Variable cfg : Config.
Variables w tp_frac sl_frac : Q.

Let cost := TOTAL_COST_FRAC cfg.
Let close := close_position cfg w tp_frac sl_frac.

(** The update written out for a TP resolution. *)
Lemma close_position_tp (a : Acc) :
  close a 1%Z
  = let eff_r := w * tp_frac - w * cost in
    let eq1 := Py.max (equity_lin a + eff_r) 0 in
    let mx1 := Py.max (max_equity_lin a) eq1 in
    let mean1 := mean_r a + (eff_r - mean_r a) / inject_Z (trades a + 1) in
    mkAcc (trades a + 1) (label1_count a + 1) (pnl_linear_sum a + eff_r)
          eq1 mx1 (Py.min (dd_min a) (eq1 - mx1))
          mean1 (M2 a + (eff_r - mean1) * (eff_r - mean1))
          (Py.max (equity_comp a * (1 + eff_r)) 0).
Proof. reflexivity. Qed.

(** The update written out for an SL resolution. *)
Lemma close_position_sl (a : Acc) :
  close a (-1)%Z
  = let eff_r := w * - sl_frac - w * cost in
    let eq1 := Py.max (equity_lin a + eff_r) 0 in
    let mx1 := Py.max (max_equity_lin a) eq1 in
    let mean1 := mean_r a + (eff_r - mean_r a) / inject_Z (trades a + 1) in
    mkAcc (trades a + 1) (label1_count a) (pnl_linear_sum a + eff_r)
          eq1 mx1 (Py.min (dd_min a) (eq1 - mx1))
          mean1 (M2 a + (eff_r - mean1) * (eff_r - mean1))
          (Py.max (equity_comp a * (1 + eff_r)) 0).
Proof. reflexivity. Qed.

(** The update written out for a FLAT resolution. *)
Lemma close_position_flat (a : Acc) :
  close a 0%Z
  = let eff_r := w * 0 - w * cost in
    let eq1 := Py.max (equity_lin a + eff_r) 0 in
    let mx1 := Py.max (max_equity_lin a) eq1 in
    mkAcc (trades a) (label1_count a) (pnl_linear_sum a + eff_r)
          eq1 mx1 (Py.min (dd_min a) (eq1 - mx1))
          (mean_r a) (M2 a)
          (Py.max (equity_comp a * (1 + eff_r)) 0).
Proof. reflexivity. Qed.


(** The trade counter moves by one on TP and SL and not otherwise. *)
Lemma close_position_trades (a : Acc) (out : Z) :
  trades (close a out)
  = if (out =? 1)%Z || (out =? -1)%Z then (trades a + 1)%Z else trades a.
Proof.
  unfold close, close_position.
  destruct (out =? 1)%Z; [| destruct (out =? -1)%Z]; reflexivity.
Qed.

End Resolution.

(** C1: on a bar where both exits trigger for an open position the
    configured ambiguous-fill policy decides: under ["SL_FIRST"] the
    position is closed as SL with raw return [-sl_frac], under
    ["TP_FIRST"] as TP with raw return [tp_frac]; when only one exit
    triggers, that exit closes the position. *)
Theorem ambiguous_fill_policy
        (cfg : Config) (w tp_frac sl_frac : Q) (i : nat) (hi lo : Q)
        (p : Position) (rest : list Position) (a : Acc)
        (still_open : list Position) :
  let scan := scan_positions cfg w tp_frac sl_frac i hi lo in
  let closed_as out :=
    scan rest (close_position cfg w tp_frac sl_frac a out) still_open in
  let out := decide_out cfg i hi lo p in
  (tp_level p <= hi -> lo <= sl_level p ->
   (AMBIGUOUS_FILL cfg = "SL_FIRST"%string ->
    out = (-1)%Z /\ scan (p :: rest) a still_open = closed_as (-1)%Z)
   /\ (AMBIGUOUS_FILL cfg = "TP_FIRST"%string ->
       out = 1%Z /\ scan (p :: rest) a still_open = closed_as 1%Z))
  /\ (tp_level p <= hi -> ~ lo <= sl_level p ->
      out = 1%Z /\ scan (p :: rest) a still_open = closed_as 1%Z)
  /\ (~ tp_level p <= hi -> lo <= sl_level p ->
      out = (-1)%Z /\ scan (p :: rest) a still_open = closed_as (-1)%Z)
  /\ pnl_linear_sum (close_position cfg w tp_frac sl_frac a (-1))
     = pnl_linear_sum a + (w * - sl_frac - w * TOTAL_COST_FRAC cfg)
  /\ pnl_linear_sum (close_position cfg w tp_frac sl_frac a 1)
     = pnl_linear_sum a + (w * tp_frac - w * TOTAL_COST_FRAC cfg).
Proof.
  intros scan closed_as out.
  assert (step : forall o, out = o -> o <> 0%Z ->
                           out = o /\ scan (p :: rest) a still_open = closed_as o).
  { intros o Ho Hnz. split; [exact Ho |].
    unfold scan, closed_as. rewrite scan_positions_cons. fold out.
    rewrite Ho, stays_open_nonzero by exact Hnz. reflexivity. }
  split; [intros Ht Hs; split; intro Hpol | split; [| split; [| split]]].
  - apply step; [| lia]. unfold out.
    rewrite decide_out_both by assumption. now rewrite Hpol.
  - apply step; [| lia]. unfold out.
    rewrite decide_out_both by assumption. now rewrite Hpol.
  - intros Ht Hs. apply step; [| lia]. now apply decide_out_tp_only.
  - intros Ht Hs. apply step; [| lia]. now apply decide_out_sl_only.
  - reflexivity.
  - reflexivity.
Qed.

(** ** The loops as folds over the sequence of resolutions *)

Section Loops.

Variable cfg : Config.
Variables w tp_frac sl_frac : Q.

Let close := close_position cfg w tp_frac sl_frac.

Lemma scan_positions_spec (i : nat) (hi lo : Q) (open_pos : list Position) :
  forall (a : Acc) (still_open : list Position),
    scan_positions cfg w tp_frac sl_frac i hi lo open_pos a still_open
    = (fold_left close (closed_on cfg i hi lo open_pos) a,
       still_open ++ kept_on cfg i hi lo open_pos).
Proof.
  induction open_pos as [| p rest IH]; intros a still_open.
  - simpl. now rewrite app_nil_r.
  - rewrite scan_positions_cons. unfold closed_on, kept_on in *. simpl.
    destruct (stays_open i (decide_out cfg i hi lo p) p) eqn:E; simpl.
    + rewrite IH, <- app_assoc. reflexivity.
    + rewrite IH. reflexivity.
Qed.

Lemma bar_step_spec (df : DataFrame) (h : Z) (a : Acc)
      (open_pos : list Position) (i : nat) :
  let opened := open_pos ++ [new_position df tp_frac sl_frac h i] in
  let hi := High (iloc df i) in
  let lo := Low (iloc df i) in
  bar_step cfg df w tp_frac sl_frac h (a, open_pos) i
  = (fold_left close (closed_on cfg i hi lo opened) a,
     kept_on cfg i hi lo opened).
Proof.
  simpl. unfold bar_step. now rewrite scan_positions_spec.
Qed.

Lemma fold_bar_step_spec (df : DataFrame) (h : Z) (idxs : list nat) :
  forall (a : Acc) (open_pos : list Position),
    fold_left (bar_step cfg df w tp_frac sl_frac h) idxs (a, open_pos)
    = (fold_left close (resolutions cfg df tp_frac sl_frac h idxs open_pos) a,
       open_after cfg df tp_frac sl_frac h idxs open_pos).
Proof.
  induction idxs as [| i rest IH]; intros a open_pos.
  - reflexivity.
  - cbn [fold_left resolutions open_after].
    rewrite bar_step_spec, IH, fold_left_app. reflexivity.
Qed.


Lemma fold_close_trades (outs : list Z) :
  forall a : Acc,
    trades (fold_left close outs a) = (trades a + count_tp_sl outs)%Z.
Proof.
  unfold count_tp_sl.
  induction outs as [| o outs IH]; intros a; simpl; [lia |].
  rewrite IH. subst close. rewrite close_position_trades.
  destruct ((o =? 1)%Z || (o =? -1)%Z); cbn [Datatypes.length]; lia.
Qed.

End Loops.

(** ** The simulator as a whole *)

Section Whole.

Variable lib : FloatLib.
Variable cfg : Config.

Lemma years_of_pos (df : DataFrame) : 0 < years_of df.
Proof.
  unfold years_of.
  apply Qlt_le_trans with (y := 1 # 1000000000); [reflexivity |].
  apply pymax_ge_r.
Qed.

Lemma run_bars_spec (df : DataFrame) (tp_frac sl_frac : Q) (horizon_days : Z)
      (start_equity : Q) (idxs : list nat) :
  let h := clamp_horizon horizon_days in
  run_bars cfg df tp_frac sl_frac horizon_days start_equity idxs
  = (fold_left (close_position cfg (1 / inject_Z h) tp_frac sl_frac)
               (resolutions cfg df tp_frac sl_frac h idxs [])
               (init_acc start_equity),
     open_after cfg df tp_frac sl_frac h idxs []).
Proof. unfold run_bars. simpl. apply fold_bar_step_spec. Qed.

Lemma simulate_short (df : DataFrame) (tp_frac sl_frac : Q)
      (horizon_days : Z) (start_equity : Q) :
  (List.length df < 3)%nat ->
  simulate_system_for_metrics lib cfg df tp_frac sl_frac horizon_days
                              start_equity
  = Py.Returned None.
Proof.
  intro H. unfold simulate_system_for_metrics.
  apply Nat.ltb_lt in H. now rewrite H.
Qed.

Lemma simulate_long (df : DataFrame) (tp_frac sl_frac : Q)
      (horizon_days : Z) (start_equity : Q) :
  (3 <= List.length df)%nat ->
  simulate_system_for_metrics lib cfg df tp_frac sl_frac horizon_days
                              start_equity
  = (r <- finish lib tp_frac sl_frac (clamp_horizon horizon_days)
                 (years_of df) start_equity
                 (fst (run_bars cfg df tp_frac sl_frac horizon_days
                                start_equity
                                (Py.range 1 (List.length df)))) ;;
     Py.Returned (Some r)).
Proof.
  intro H. unfold simulate_system_for_metrics.
  apply Nat.ltb_ge in H. rewrite H.
  now destruct (run_bars _ _ _ _ _ _ _).
Qed.

(** The fields of the result in terms of the final accumulators. *)
Lemma finish_fields (tp_frac sl_frac : Q) (h : Z) (years start_equity : Q)
      (a : Acc) (r : SimulationResult) :
  finish lib tp_frac sl_frac h years start_equity a = Py.Returned r ->
  r_trades r = trades a
  /\ r_horizon_days r = h
  /\ r_years r = years
  /\ r_equity_final r = equity_comp a
  /\ r_compounded_return r = equity_comp a / start_equity - 1
  /\ r_trades_per_year r
     = (if Py.Qltb 0 years then Some (inject_Z (trades a) / years) else None)
  /\ compounded_cagr_of lib years (r_compounded_return r)
     = Py.Returned (r_compounded_cagr r).
Proof.
  unfold finish, Py.truediv.
  destruct (Qeq_bool start_equity 0); cbn [Py.bind]; [discriminate |].
  destruct (compounded_cagr_of lib years (equity_comp a / start_equity - 1))
    as [c | e] eqn:Ec; cbn [Py.bind]; [| discriminate].
  intro H. injection H as <-. cbn. repeat split. exact Ec.
Qed.

(** The CAGR step returns unless the power is called and raises. *)
Lemma compounded_cagr_of_spec (years cr : Q) :
  0 < years ->
  (cr <= - (999999 # 1000000) ->
   compounded_cagr_of lib years cr = Py.Returned None)
  /\ (- (999999 # 1000000) < cr ->
      compounded_cagr_of lib years cr
      = (p <- float_pow lib (1 + cr) (1 / years) ;; Py.Returned (Some (p - 1)))).
Proof.
  intro Hy. unfold compounded_cagr_of.
  apply Qltb_true in Hy. rewrite Hy. cbn [andb]. split; intro H.
  - apply Qltb_false in H. now rewrite H.
  - apply Qltb_true in H. now rewrite H.
Qed.



Lemma finish_raises (tp_frac sl_frac : Q) (h : Z) (years start_equity : Q)
      (a : Acc) :
  start_equity == 0 ->
  finish lib tp_frac sl_frac h years start_equity a
  = Py.Raised Py.ZeroDivisionError.
Proof.
  intro H. unfold finish. now rewrite truediv_raises by exact H.
Qed.

(** Whenever the simulator returns a result, the frame has at least
    three rows and the result is [finish] of the final accumulators. *)
Lemma simulate_result_inv (df : DataFrame) (tp_frac sl_frac : Q)
      (horizon_days : Z) (start_equity : Q) (r : SimulationResult) :
  simulate_system_for_metrics lib cfg df tp_frac sl_frac horizon_days
                              start_equity
  = Py.Returned (Some r) ->
  (3 <= List.length df)%nat
  /\ finish lib tp_frac sl_frac (clamp_horizon horizon_days)
            (years_of df) start_equity
            (fst (run_bars cfg df tp_frac sl_frac horizon_days start_equity
                           (Py.range 1 (List.length df))))
     = Py.Returned r.
Proof.
  intro H.
  destruct (Nat.lt_ge_cases (List.length df) 3) as [Hlt | Hge].
  - rewrite simulate_short in H by exact Hlt. discriminate.
  - split; [exact Hge |]. rewrite simulate_long in H by exact Hge.
    destruct (finish _ _ _ _ _ _ _) as [r0 | e]; simpl in H;
      [now injection H as -> | discriminate].
Qed.

(** With at least three rows the simulator never answers [None]. *)
Lemma simulate_long_not_none (df : DataFrame) (tp_frac sl_frac : Q)
      (horizon_days : Z) (start_equity : Q) :
  (3 <= List.length df)%nat ->
  simulate_system_for_metrics lib cfg df tp_frac sl_frac horizon_days
                              start_equity
  <> Py.Returned None.
Proof.
  intros Hn H. rewrite simulate_long in H by exact Hn.
  destruct (finish _ _ _ _ _ _ _); cbn [Py.bind] in H; discriminate.
Qed.


End Whole.

(** ** Properties of the position simulator *)


(** The running mean times the trade count is the sum of the net
    returns of the TP and SL resolutions: FLAT resolutions never enter. *)
Lemma fold_close_mean (cfg : Config) (w tp_frac sl_frac : Q) (outs : list Z) :
  forall (a : Acc) (s0 : Q),
    (0 <= trades a)%Z ->
    mean_r a * inject_Z (trades a) == s0 ->
    let a1 := fold_left (close_position cfg w tp_frac sl_frac) outs a in
    mean_r a1 * inject_Z (trades a1)
    == traded_returns_from cfg w tp_frac sl_frac outs s0.
Proof.
  induction outs as [| o outs IH]; intros a s0 Ht Hm; [exact Hm |].
  cbn [fold_left traded_returns_from]. apply IH.
  - rewrite close_position_trades. destruct (_ || _); lia.
  - assert (Hnz : ~ inject_Z (trades a + 1) == 0).
    { intro H. apply (inject_Z_injective (trades a + 1) 0) in H. lia. }
    assert (Hstep : forall x : Q,
               (mean_r a + (x - mean_r a) / inject_Z (trades a + 1))
               * inject_Z (trades a + 1)
               == s0 + x).
    { intro x. rewrite <- Hm, inject_Z_plus. rewrite inject_Z_plus in Hnz.
      field. exact Hnz. }
    unfold close_position, eff_return, raw_return.
    destruct (o =? 1)%Z; [| destruct (o =? -1)%Z]; cbn [orb mean_r trades].
    + apply Hstep.
    + apply Hstep.
    + exact Hm.
Qed.

(** C3: when a position is closed on a bar it leaves the open set; the
    trade counter is incremented, and the running mean and sum of squares
    take their accumulation step, exactly when the outcome is TP or SL; a
    FLAT expiry adds a zero raw return and leaves counter, mean and sum
    of squares unchanged.  Over a run the counter is the number of TP and
    SL resolutions and the mean is the mean of their net returns. *)
Theorem trade_statistics_only_on_tp_sl
        (cfg : Config) (tp_frac sl_frac : Q) :
  (forall (w : Q) (i : nat) (hi lo : Q) (p : Position)
          (rest : list Position) (a : Acc) (still_open : list Position),
      let scan := scan_positions cfg w tp_frac sl_frac i hi lo in
      let out := decide_out cfg i hi lo p in
      let a1 := close_position cfg w tp_frac sl_frac a out in
      let cost := TOTAL_COST_FRAC cfg in
      let accumulates eff_r :=
        let mean1 :=
          mean_r a + (eff_r - mean_r a) / inject_Z (trades a + 1) in
        mean_r a1 = mean1
        /\ M2 a1 = M2 a + (eff_r - mean1) * (eff_r - mean1) in
      stays_open i out p = false ->
      scan (p :: rest) a still_open = scan rest a1 still_open
      /\ snd (scan (p :: rest) a still_open)
         = still_open ++ kept_on cfg i hi lo rest
      /\ (out = 1%Z \/ out = (-1)%Z \/ out = 0%Z)
      /\ (trades a1 = (trades a + 1)%Z <-> out = 1%Z \/ out = (-1)%Z)
      /\ (out = 1%Z -> accumulates (w * tp_frac - w * cost))
      /\ (out = (-1)%Z -> accumulates (w * - sl_frac - w * cost))
      /\ (out = 0%Z ->
          (expiry p <= Z.of_nat i)%Z
          /\ trades a1 = trades a /\ mean_r a1 = mean_r a /\ M2 a1 = M2 a
          /\ pnl_linear_sum a1 = pnl_linear_sum a + (w * 0 - w * cost)))
  /\ (forall (df : DataFrame) (horizon_days : Z) (start_equity : Q)
             (idxs : list nat),
         let h := clamp_horizon horizon_days in
         let w := 1 / inject_Z h in
         let a := fst (run_bars cfg df tp_frac sl_frac horizon_days
                                start_equity idxs) in
         let outs := resolutions cfg df tp_frac sl_frac h idxs [] in
         trades a = count_tp_sl outs
         /\ mean_r a * inject_Z (trades a)
            == traded_returns_from cfg w tp_frac sl_frac outs 0).
Proof.
  split.
  - intros w i hi lo p rest a still_open scan out a1 cost accumulates Hclosed.
    assert (Hscan : scan (p :: rest) a still_open = scan rest a1 still_open).
    { unfold scan. rewrite scan_positions_cons. fold out.
      now rewrite Hclosed. }
    split; [exact Hscan |].
    split.
    { rewrite Hscan. unfold scan. now rewrite scan_positions_spec. }
    split; [apply decide_out_range |].
    split.
    { unfold a1. rewrite close_position_trades.
      destruct (decide_out_range cfg i hi lo p) as [H | [H | H]];
        fold out in H; clearbody out; subst out; simpl; split; intro;
        auto; lia. }
    split; [| split].
    + intro H. unfold accumulates, a1. rewrite H, close_position_tp.
      simpl. split; reflexivity.
    + intro H. unfold accumulates, a1. rewrite H, close_position_sl.
      simpl. split; reflexivity.
    + intro H. split.
      * unfold stays_open in Hclosed. rewrite H in Hclosed.
        simpl in Hclosed. apply Z.ltb_ge in Hclosed. exact Hclosed.
      * unfold a1. rewrite H, close_position_flat. simpl. repeat split.
  - intros df horizon_days start_equity idxs h w a outs.
    unfold a. rewrite run_bars_spec. cbn [fst]. fold h w outs. split.
    + rewrite fold_close_trades. reflexivity.
    + apply fold_close_mean; [simpl; lia | simpl; ring].
Qed.

(** Every recorded resolution carries one of the three codes. *)
Lemma closed_on_codes (cfg : Config) (i : nat) (hi lo : Q)
      (open_pos : list Position) :
  Forall (fun o => o = 1%Z \/ o = (-1)%Z \/ o = 0%Z)
         (closed_on cfg i hi lo open_pos).
Proof.
  unfold closed_on. apply Forall_forall. intros o Ho.
  apply in_map_iff in Ho. destruct Ho as (p & <- & _).
  apply decide_out_range.
Qed.

Lemma resolutions_codes (cfg : Config) (df : DataFrame) (tp_frac sl_frac : Q)
      (h : Z) (idxs : list nat) :
  forall open_pos : list Position,
    Forall (fun o => o = 1%Z \/ o = (-1)%Z \/ o = 0%Z)
           (resolutions cfg df tp_frac sl_frac h idxs open_pos).
Proof.
  induction idxs as [| i rest IH]; intros open_pos; simpl.
  - constructor.
  - apply Forall_app. split; [apply closed_on_codes | apply IH].
Qed.

Lemma count_split (outs : list Z) :
  Forall (fun o => o = 1%Z \/ o = (-1)%Z \/ o = 0%Z) outs ->
  Z.of_nat (List.length outs) = (count_tp_sl outs + count_flat outs)%Z.
Proof.
  unfold count_tp_sl, count_flat.
  induction 1 as [| o outs Ho _ IH]; [reflexivity |].
  cbn [filter Datatypes.length].
  destruct Ho as [-> | [-> | ->]]; cbn [Z.eqb orb Datatypes.length Pos.eqb];
    lia.
Qed.

(** The reported trade count is the number of TP and SL resolutions. *)
Lemma simulate_trades (lib : FloatLib) (cfg : Config) (df : DataFrame)
      (tp_frac sl_frac : Q) (horizon_days : Z) (start_equity : Q)
      (r : SimulationResult) :
  simulate_system_for_metrics lib cfg df tp_frac sl_frac horizon_days
                              start_equity
  = Py.Returned (Some r) ->
  r_trades r = count_tp_sl (run_resolutions cfg df tp_frac sl_frac horizon_days).
Proof.
  intro Hr. apply simulate_result_inv in Hr. destruct Hr as [_ Hf].
  apply finish_fields in Hf. destruct Hf as (-> & _).
  rewrite run_bars_spec. simpl. rewrite fold_close_trades. reflexivity.
Qed.

(** C4 (as the code has it): FLAT expiries are not counted in the trade
    tally.  The reported [trades], from which [trades_per_year] is
    computed, is the number of TP and SL resolutions, the same
    resolutions that enter the mean and variance; the FLAT resolutions
    make up the rest of the resolutions of the run. *)
Theorem trades_tally_excludes_flat
        (lib : FloatLib) (cfg : Config) (df : DataFrame)
        (tp_frac sl_frac : Q) (horizon_days : Z) (start_equity : Q)
        (r : SimulationResult) :
  simulate_system_for_metrics lib cfg df tp_frac sl_frac horizon_days
                              start_equity
  = Py.Returned (Some r) ->
  let outs := run_resolutions cfg df tp_frac sl_frac horizon_days in
  r_trades r = count_tp_sl outs
  /\ Z.of_nat (List.length outs) = (r_trades r + count_flat outs)%Z
  /\ r_trades_per_year r = Some (inject_Z (r_trades r) / r_years r).
Proof.
  intros Hr outs.
  pose proof (simulate_trades _ _ _ _ _ _ _ _ Hr) as Ht. fold outs in Ht.
  split; [exact Ht |]. split.
  - rewrite Ht. apply count_split. apply resolutions_codes.
  - apply simulate_result_inv in Hr. destruct Hr as [_ Hf].
    apply finish_fields in Hf.
    destruct Hf as (Ht' & _ & Hy & _ & _ & Hty & _).
    rewrite Hty, Ht', Hy.
    destruct (Py.Qltb 0 (years_of df)) eqn:E; [reflexivity |].
    apply Qltb_false in E. exfalso.
    apply (Qlt_not_le _ _ (years_of_pos df) E).
Qed.

(** C6: the raw return is [tp_frac] on TP, [-sl_frac] on SL and zero on
    FLAT; every resolution, FLAT included, moves the linear sum, the
    linear equity and the compounding equity by the weighted return net
    of the weighted cost; over a run the linear sum is the sum of these
    net returns over all resolutions. *)
Theorem effective_return_on_resolution (cfg : Config) (w tp_frac sl_frac : Q) :
  let cost := TOTAL_COST_FRAC cfg in
  let close := close_position cfg w tp_frac sl_frac in
  let applies (out : Z) (eff_r : Q) :=
    forall a : Acc,
      pnl_linear_sum (close a out) = pnl_linear_sum a + eff_r
      /\ equity_lin (close a out) = Py.max (equity_lin a + eff_r) 0
      /\ equity_comp (close a out) = Py.max (equity_comp a * (1 + eff_r)) 0 in
  applies 1%Z (w * tp_frac - w * cost)
  /\ applies (-1)%Z (w * - sl_frac - w * cost)
  /\ applies 0%Z (w * 0 - w * cost)
  /\ w * 0 - w * cost == - (w * cost)
  /\ (forall out : Z,
         out = 1%Z \/ out = (-1)%Z \/ out = 0%Z ->
         applies out (eff_return cfg w tp_frac sl_frac out))
  /\ (forall (outs : list Z) (a : Acc),
         pnl_linear_sum (fold_left close outs a)
         = fold_left (fun s out => s + eff_return cfg w tp_frac sl_frac out)
                     outs (pnl_linear_sum a)).
Proof.
  intros cost close applies.
  assert (H1 : applies 1%Z (w * tp_frac - w * cost)).
  { intro a. unfold close. rewrite close_position_tp. simpl. auto. }
  assert (H2 : applies (-1)%Z (w * - sl_frac - w * cost)).
  { intro a. unfold close. rewrite close_position_sl. simpl. auto. }
  assert (H3 : applies 0%Z (w * 0 - w * cost)).
  { intro a. unfold close. rewrite close_position_flat. simpl. auto. }
  assert (H4 : forall out : Z,
             out = 1%Z \/ out = (-1)%Z \/ out = 0%Z ->
             applies out (eff_return cfg w tp_frac sl_frac out)).
  { intros out [-> | [-> | ->]]; assumption. }
  split; [exact H1 |]. split; [exact H2 |]. split; [exact H3 |].
  split; [ring |]. split; [exact H4 |].
  induction outs as [| o outs IH]; intro a; [reflexivity |].
  cbn [fold_left]. rewrite IH. f_equal.
  unfold close, close_position, eff_return, raw_return.
  destruct (o =? 1)%Z; [| destruct (o =? -1)%Z]; reflexivity.
Qed.

(** ** The open set along the run *)

Section OpenSet.

Variable cfg : Config.
Variable df : DataFrame.
Variables tp_frac sl_frac : Q.
Variable h : Z.

Let opened := new_position df tp_frac sl_frac h.
Let after := open_after cfg df tp_frac sl_frac h.

Lemma open_after_snoc (idxs : list nat) (k : nat) :
  forall open_pos : list Position,
    after (idxs ++ [k]) open_pos
    = kept_on cfg k (High (iloc df k)) (Low (iloc df k))
              (after idxs open_pos ++ [opened k]).
Proof.
  induction idxs as [| i rest IH]; intros open_pos.
  - reflexivity.
  - cbn [app]. unfold after in *. cbn [open_after]. apply IH.
Qed.

(** What is kept on bar [k] expires strictly after [k]. *)
Lemma kept_on_expiry (k : nat) (hi lo : Q) (open_pos : list Position) :
  Forall (fun p => (Z.of_nat k < expiry p)%Z) (kept_on cfg k hi lo open_pos).
Proof.
  unfold kept_on. apply Forall_forall. intros p Hp.
  apply filter_In in Hp. destruct Hp as [_ Hp].
  now apply stays_open_true in Hp.
Qed.

Lemma kept_on_incl (k : nat) (hi lo : Q) (open_pos : list Position) :
  incl (kept_on cfg k hi lo open_pos) open_pos.
Proof. unfold kept_on. apply incl_filter. Qed.

(** Every open position was opened on one of the bars processed. *)
Lemma open_after_origin (idxs : list nat) :
  Forall (fun p => exists i, In i idxs /\ p = opened i) (after idxs []).
Proof.
  induction idxs as [| k idxs IH] using rev_ind.
  - constructor.
  - rewrite open_after_snoc. apply Forall_forall. intros p Hp.
    apply kept_on_incl in Hp. apply in_app_or in Hp.
    destruct Hp as [Hp | [<- | []]].
    + rewrite Forall_forall in IH. destruct (IH p Hp) as (i & Hi & ->).
      exists i. split; [apply in_or_app; now left | reflexivity].
    + exists k. split; [apply in_or_app; right; now left | reflexivity].
Qed.

Lemma open_after_expiry (idxs : list nat) (k : nat) :
  Forall (fun p => (Z.of_nat k < expiry p)%Z) (after (idxs ++ [k]) []).
Proof. rewrite open_after_snoc. apply kept_on_expiry. Qed.

End OpenSet.

Lemma range_snoc (k : nat) :
  (1 <= k)%nat -> Py.range 1 (S k) = Py.range 1 k ++ [k].
Proof.
  intro Hk. unfold Py.range.
  replace (S k - 1)%nat with (S (k - 1)) by lia.
  rewrite seq_S. f_equal. f_equal. lia.
Qed.

Lemma in_range (lo hi i : nat) :
  In i (Py.range lo hi) <-> (lo <= i < hi)%nat.
Proof. unfold Py.range. rewrite in_seq. lia. Qed.



(** ** The grid loops *)

Lemma for_each_app {A S : Type} (f : S -> A -> Py.result S)
      (l1 l2 : list A) :
  forall s : S,
    for_each f (l1 ++ l2) s = (s1 <- for_each f l1 s ;; for_each f l2 s1).
Proof.
  induction l1 as [| x l1 IH]; intro s; [reflexivity |].
  cbn [app for_each]. destruct (f s x) as [s1 | e]; cbn [Py.bind];
    [apply IH | reflexivity].
Qed.

Lemma for_each_map {A B S : Type} (f : S -> B -> Py.result S) (m : A -> B)
      (l : list A) :
  forall s : S,
    for_each f (map m l) s = for_each (fun s x => f s (m x)) l s.
Proof.
  induction l as [| x l IH]; intro s; [reflexivity |].
  cbn [map for_each]. destruct (f s (m x)); cbn [Py.bind];
    [apply IH | reflexivity].
Qed.

(** A loop whose body is a loop is a loop over the pairs. *)
Lemma for_each_nested {A B S : Type} (g : A -> S -> B -> Py.result S)
      (k : A -> list B) (l : list A) :
  forall s : S,
    for_each (fun s x => for_each (g x) (k x) s) l s
    = for_each (fun s xy => g (fst xy) s (snd xy))
               (flat_map (fun x => map (pair x) (k x)) l) s.
Proof.
  induction l as [| x l IH]; intro s; [reflexivity |].
  cbn [for_each flat_map]. rewrite for_each_app, for_each_map.
  cbn [fst snd].
  destruct (for_each (g x) (k x) s); cbn [Py.bind]; [apply IH | reflexivity].
Qed.

Lemma grid_combos_pairs (cfg : Config) :
  flat_map (fun x : Q * Q => map (pair x) (horizon_values cfg))
           (flat_map (fun tp => map (pair tp) (sl_values cfg))
                     (tp_values cfg))
  = grid_combos cfg.
Proof.
  unfold grid_combos.
  induction (tp_values cfg) as [| tp tps IH]; [reflexivity |].
  cbn [flat_map]. rewrite flat_map_app, IH. f_equal. clear IH.
  induction (sl_values cfg) as [| sl sls IHs]; [reflexivity |].
  cbn [map flat_map]. now rewrite IHs.
Qed.

Section GridLoops.

Variable lib : FloatLib.
Variable cfg : Config.
Variable df : DataFrame.





Let body (s : Z * list GridRow) (c : Q * Q * Z) :=
  grid_body lib cfg df (fst (fst c)) (snd (fst c)) s (snd c).

Lemma grid_loop_flat :
  grid_loop lib cfg df = for_each body (grid_combos cfg) (0%Z, []).
Proof.
  unfold grid_loop, body.
  rewrite (for_each_nested
             (fun tp s sl => for_each (grid_body lib cfg df tp sl)
                                      (horizon_values cfg) s)
             (fun _ => sl_values cfg) (tp_values cfg)).
  rewrite (for_each_nested
             (fun (x : Q * Q) s h =>
                grid_body lib cfg df (fst x) (snd x) s h)
             (fun _ => horizon_values cfg)).
  now rewrite grid_combos_pairs.
Qed.

Lemma grid_combos_length :
  List.length (grid_combos cfg) = total_combos cfg.
Proof.
  rewrite <- grid_combos_pairs. unfold total_combos.
  rewrite !flat_map_constant_length
    with (c := List.length (horizon_values cfg))
    by (intros; apply length_map).
  rewrite flat_map_constant_length with (c := List.length (sl_values cfg))
    by (intros; apply length_map).
  lia.
Qed.

Let sim (c : Q * Q * Z) : Py.result (option SimulationResult) :=
  simulate_system_for_metrics lib cfg df (fst (fst c)) (snd (fst c)) (snd c)
                              (START_CAPITAL cfg).

(** The loop over the combinations, by the simulations it makes: it
    returns one row per combination when all of them return, and stops
    with the exception of the first one that raises. *)
Lemma for_each_body_outcome (combos : list (Q * Q * Z)) :
  (3 <= List.length df)%nat ->
  forall s : Z * list GridRow,
    match for_each body combos s with
    | Py.Returned s1 =>
        exists rows,
          s1 = ((fst s + Z.of_nat (List.length combos))%Z, snd s ++ rows)
          /\ Forall2
               (fun c row =>
                  sim c = Py.Returned (Some (row_stats row))
                  /\ row_spread row
                     = r_tp_frac (row_stats row) - r_sl_frac (row_stats row))
               combos rows
    | Py.Raised e =>
        exists pre c post,
          combos = pre ++ c :: post
          /\ Forall (fun c1 => exists r, sim c1 = Py.Returned (Some r)) pre
          /\ sim c = Py.Raised e
    end.
Proof.
  intro Hn. induction combos as [| c combos IH]; intro s.
  - cbn [for_each]. exists []. cbn [Datatypes.length].
    rewrite app_nil_r, Z.add_0_r. destruct s. split; [reflexivity | constructor].
  - destruct s as [counter results]. cbn [for_each].
    unfold body at 1, grid_body. fold (sim c).
    destruct (sim c) as [[r |] | e] eqn:Hsim; cbn [Py.bind].
    + specialize (IH ((counter + 1)%Z,
                      results ++ [mkRow r (r_tp_frac r - r_sl_frac r)])).
      destruct (for_each body combos _) as [s1 | e].
      * destruct IH as (rows & -> & HF).
        exists (mkRow r (r_tp_frac r - r_sl_frac r) :: rows).
        cbn [fst snd Datatypes.length]. split.
        -- f_equal; [lia | now rewrite <- app_assoc].
        -- constructor; [split; [exact Hsim | reflexivity] | exact HF].
      * destruct IH as (pre & c1 & post & -> & Hpre & Hc1).
        exists (c :: pre), c1, post. split; [reflexivity |].
        split; [| exact Hc1]. constructor; [now exists r | exact Hpre].
    + exfalso. revert Hsim. unfold sim. now apply simulate_long_not_none.
    + exists [], c, combos. split; [reflexivity |].
      split; [apply Forall_nil | exact Hsim].
Qed.

(** A run that returns has made every simulation and holds its rows. *)
Lemma grid_run_returned (rows : list GridRow) :
  (3 <= List.length df)%nat ->
  run_grid_search lib cfg df = Py.Returned rows ->
  grid_loop lib cfg df = Py.Returned (Z.of_nat (total_combos cfg), rows)
  /\ Forall2
       (fun c row =>
          sim c = Py.Returned (Some (row_stats row))
          /\ row_spread row
             = r_tp_frac (row_stats row) - r_sl_frac (row_stats row))
       (grid_combos cfg) rows.
Proof.
  intros Hn Hrun. unfold run_grid_search in Hrun.
  pose proof (for_each_body_outcome (grid_combos cfg) Hn (0%Z, [])) as H.
  rewrite <- grid_loop_flat in H.
  destruct (grid_loop lib cfg df) as [s1 | e]; cbn [Py.bind] in Hrun;
    [| discriminate].
  destruct H as (rows1 & -> & HF). cbn [snd app] in Hrun.
  injection Hrun as <-. cbn [fst snd app].
  rewrite grid_combos_length, Z.add_0_l. split; [reflexivity | exact HF].
Qed.

(** A run raises only what one of its simulations raises: the first
    that does, after which no combination is tried. *)
Lemma grid_run_raised (e : Py.exn) :
  (3 <= List.length df)%nat ->
  run_grid_search lib cfg df = Py.Raised e ->
  exists pre c post,
    grid_combos cfg = pre ++ c :: post
    /\ Forall (fun c1 => exists r, sim c1 = Py.Returned (Some r)) pre
    /\ sim c = Py.Raised e.
Proof.
  intros Hn Hrun. unfold run_grid_search in Hrun.
  pose proof (for_each_body_outcome (grid_combos cfg) Hn (0%Z, [])) as H.
  rewrite <- grid_loop_flat in H.
  destruct (grid_loop lib cfg df) as [s1 | e1]; cbn [Py.bind] in Hrun;
    [discriminate |].
  now injection Hrun as <-.
Qed.

(** A run none of whose simulations raises returns. *)
Lemma grid_run_returns :
  (3 <= List.length df)%nat ->
  (forall c e, In c (grid_combos cfg) -> sim c <> Py.Raised e) ->
  exists rows, run_grid_search lib cfg df = Py.Returned rows.
Proof.
  intros Hn Hall.
  destruct (run_grid_search lib cfg df) as [rows | e] eqn:Hrun;
    [now exists rows | exfalso].
  destruct (grid_run_raised e Hn Hrun) as (pre & c & post & Hc & _ & He).
  apply (Hall c e); [| exact He].
  rewrite Hc. apply in_elt.
Qed.

Lemma total_combos_formula :
  total_combos cfg
  = (TP_STEPS cfg * SL_STEPS cfg
     * Z.to_nat (HORIZON_MAX cfg + 1 - HORIZON_MIN cfg))%nat.
Proof.
  unfold total_combos, tp_values, sl_values, horizon_values.
  now rewrite !linspace_length, arange_length.
Qed.

End GridLoops.


(** C8 (as the code has it): the reported CAGR is
    [(1 + compounded_return) ** (1 / years) - 1] exactly when
    [compounded_return > -0.999999], and the NaN marker otherwise;
    [years] is always positive. *)
Theorem compounded_cagr_guard
        (lib : FloatLib) (cfg : Config) (df : DataFrame)
        (tp_frac sl_frac : Q) (horizon_days : Z) (start_equity : Q)
        (r : SimulationResult) :
  simulate_system_for_metrics lib cfg df tp_frac sl_frac horizon_days
                              start_equity
  = Py.Returned (Some r) ->
  let cr := r_compounded_return r in
  0 < r_years r
  /\ cr = r_equity_final r / start_equity - 1
  /\ (- (999999 # 1000000) < cr ->
      exists p,
        float_pow lib (1 + cr) (1 / r_years r) = Py.Returned p
        /\ r_compounded_cagr r = Some (p - 1))
  /\ (cr <= - (999999 # 1000000) -> r_compounded_cagr r = None).
Proof.
  intros Hr cr. apply simulate_result_inv in Hr. destruct Hr as [_ Hf].
  apply finish_fields in Hf.
  destruct Hf as (_ & _ & Hy & He & Hc & _ & Hg).
  fold cr in Hc, Hg. rewrite Hy, He.
  destruct (compounded_cagr_of_spec lib (years_of df) cr (years_of_pos df))
    as [Hlow Hhigh].
  split; [apply years_of_pos |]. split; [exact Hc |]. split.
  - intro H. rewrite (Hhigh H) in Hg.
    destruct (float_pow lib (1 + cr) (1 / years_of df)) as [p | e];
      cbn [Py.bind] in Hg; [| discriminate].
    exists p. split; [reflexivity | now injection Hg as <-].
  - intro H. rewrite (Hlow H) in Hg. now injection Hg as <-.
Qed.

Section Unvalidated.

Variable lib : FloatLib.
Variable cfg : Config.
Variable df : DataFrame.

Lemma for_each_nil_body {A S : Type} (f : S -> A -> Py.result S) :
  (forall s x, f s x = Py.Returned s) ->
  forall (l : list A) (s : S), for_each f l s = Py.Returned s.
Proof.
  intros Hf l. induction l as [| x l IH]; intro s; [reflexivity |].
  cbn [for_each]. rewrite Hf. apply IH.
Qed.

Lemma horizon_values_empty :
  (HORIZON_MAX cfg < HORIZON_MIN cfg)%Z -> horizon_values cfg = [].
Proof.
  intro H. unfold horizon_values, Np.arange.
  replace (Z.to_nat (HORIZON_MAX cfg + 1 - HORIZON_MIN cfg)) with 0%nat by lia.
  reflexivity.
Qed.

Lemma grid_loop_empty_horizons :
  (HORIZON_MAX cfg < HORIZON_MIN cfg)%Z ->
  grid_loop lib cfg df = Py.Returned (0%Z, []).
Proof.
  intro H. unfold grid_loop. rewrite horizon_values_empty by exact H.
  apply for_each_nil_body. intros s tp.
  apply for_each_nil_body. intros s1 sl. reflexivity.
Qed.

End Unvalidated.

(** C9 (as the code has it): the grid run validates nothing.  For every
    configuration, reversed bounds and non-positive horizon ranges
    included, a run on at least three bars goes through the enumerated
    combinations in order.  The only exceptions it can raise are those of
    its simulations: when none of them raises it returns
    [TP_STEPS * SL_STEPS * max 0 (HORIZON_MAX + 1 - HORIZON_MIN)] rows,
    having counted as many combinations, and when it raises, a simulation
    of an enumerated combination raised that exception.  When
    [HORIZON_MAX < HORIZON_MIN] no combination is enumerated and the
    result is empty. *)
Theorem grid_runs_without_validation
        (lib : FloatLib) (cfg : Config) (df : DataFrame) :
  let simulate c :=
    simulate_system_for_metrics lib cfg df (fst (fst c)) (snd (fst c)) (snd c)
                                (START_CAPITAL cfg) in
  ((3 <= List.length df)%nat ->
   ((forall c e, In c (grid_combos cfg) -> simulate c <> Py.Raised e) ->
    exists rows,
      grid_loop lib cfg df = Py.Returned (Z.of_nat (total_combos cfg), rows)
      /\ run_grid_search lib cfg df = Py.Returned rows
      /\ List.length rows
         = (TP_STEPS cfg * SL_STEPS cfg
            * Z.to_nat (HORIZON_MAX cfg + 1 - HORIZON_MIN cfg))%nat)
   /\ (forall rows,
          run_grid_search lib cfg df = Py.Returned rows ->
          List.length rows
          = (TP_STEPS cfg * SL_STEPS cfg
             * Z.to_nat (HORIZON_MAX cfg + 1 - HORIZON_MIN cfg))%nat)
   /\ (forall e,
          run_grid_search lib cfg df = Py.Raised e ->
          exists c, In c (grid_combos cfg) /\ simulate c = Py.Raised e))
  /\ ((HORIZON_MAX cfg < HORIZON_MIN cfg)%Z ->
      grid_loop lib cfg df = Py.Returned (0%Z, [])
      /\ run_grid_search lib cfg df = Py.Returned []).
Proof.
  intro simulate.
  assert (Hlen : (3 <= List.length df)%nat ->
                 forall rows,
                   run_grid_search lib cfg df = Py.Returned rows ->
                   grid_loop lib cfg df
                   = Py.Returned (Z.of_nat (total_combos cfg), rows)
                   /\ List.length rows
                      = (TP_STEPS cfg * SL_STEPS cfg
                         * Z.to_nat (HORIZON_MAX cfg + 1
                                     - HORIZON_MIN cfg))%nat).
  { intros Hn rows Hrun.
    destruct (grid_run_returned lib cfg df rows Hn Hrun) as [Hloop HF].
    split; [exact Hloop |].
    rewrite <- (Forall2_length HF), grid_combos_length.
    apply total_combos_formula. }
  split.
  - intro Hn. split; [| split].
    + intro Hall.
      destruct (grid_run_returns lib cfg df Hn Hall) as [rows Hrun].
      destruct (Hlen Hn rows Hrun) as [Hloop Hl].
      exists rows. split; [exact Hloop |]. split; [exact Hrun | exact Hl].
    + intros rows Hrun. now destruct (Hlen Hn rows Hrun).
    + intros e Hrun.
      destruct (grid_run_raised lib cfg df e Hn Hrun)
        as (pre & c & post & Hc & _ & He).
      exists c. split; [rewrite Hc; apply in_elt | exact He].
  - intro H. unfold run_grid_search.
    rewrite grid_loop_empty_horizons by exact H. split; reflexivity.
Qed.

Lemma clamp_horizon_idem (hd : Z) :
  clamp_horizon (clamp_horizon hd) = clamp_horizon hd.
Proof. unfold clamp_horizon. lia. Qed.

Lemma simulate_clamped (lib : FloatLib) (cfg : Config) (df : DataFrame)
      (tp_frac sl_frac : Q) (hd : Z) (start_equity : Q) :
  simulate_system_for_metrics lib cfg df tp_frac sl_frac hd start_equity
  = simulate_system_for_metrics lib cfg df tp_frac sl_frac (clamp_horizon hd)
                                start_equity.
Proof.
  unfold simulate_system_for_metrics, run_bars.
  now rewrite clamp_horizon_idem.
Qed.

(** C10: the simulator uses the horizon only through
    [max(int(horizon_days), 1)]: a call with any horizon returns what the
    call with the clamped horizon returns, a zero or negative horizon
    returns what horizon 1 returns, and the reported [horizon_days] is
    the clamped value. *)
Theorem horizon_is_clamped
        (lib : FloatLib) (cfg : Config) (df : DataFrame)
        (tp_frac sl_frac : Q) (h : Z) (start_equity : Q) :
  let simulate hd :=
    simulate_system_for_metrics lib cfg df tp_frac sl_frac hd start_equity in
  simulate h = simulate (Z.max h 1)
  /\ ((h <= 0)%Z -> simulate h = simulate 1%Z)
  /\ (forall r, simulate h = Py.Returned (Some r) ->
                r_horizon_days r = Z.max h 1).
Proof.
  intro simulate. split; [apply simulate_clamped |]. split.
  - intro Hh. unfold simulate. rewrite simulate_clamped.
    unfold clamp_horizon. now replace (Z.max h 1) with 1%Z by lia.
  - intros r Hr. apply simulate_result_inv in Hr. destruct Hr as [_ Hf].
    apply finish_fields in Hf. destruct Hf as (_ & -> & _). reflexivity.
Qed.

(** ** Concrete instances *)

(** C1 at a bar that spans both exits of a position, under each policy. *)
Lemma ambiguous_fill_policy_witness :
  decide_out default_config 1 120 80 (mkPosition 110 90 3) = (-1)%Z
  /\ decide_out tp_first_config 1 120 80 (mkPosition 110 90 3) = 1%Z.
Proof.
  split.
  - destruct (ambiguous_fill_policy default_config 1 (1 # 10) (1 # 10) 1
                120 80 (mkPosition 110 90 3) [] (init_acc 100000) [])
      as [Hboth _].
    cbv zeta in Hboth.
    assert (Ht : tp_level (mkPosition 110 90 3) <= 120)
      by (apply Qle_bool_iff; reflexivity).
    assert (Hs : 80 <= sl_level (mkPosition 110 90 3))
      by (apply Qle_bool_iff; reflexivity).
    exact (proj1 (proj1 (Hboth Ht Hs) eq_refl)).
  - destruct (ambiguous_fill_policy tp_first_config 1 (1 # 10) (1 # 10) 1
                120 80 (mkPosition 110 90 3) [] (init_acc 100000) [])
      as [Hboth _].
    cbv zeta in Hboth.
    assert (Ht : tp_level (mkPosition 110 90 3) <= 120)
      by (apply Qle_bool_iff; reflexivity).
    assert (Hs : 80 <= sl_level (mkPosition 110 90 3))
      by (apply Qle_bool_iff; reflexivity).
    exact (proj1 (proj2 (Hboth Ht Hs) eq_refl)).
Defined.


(** C3 on a quiet bar at which a position reaches its expiry. *)
Lemma trade_statistics_only_on_tp_sl_witness :
  let a := init_acc 100000 in
  let p := mkPosition 110 90 1 in
  let a1 := close_position default_config 1 (1 # 10) (1 # 10) a
                           (decide_out default_config 1 100 100 p) in
  stays_open 1 (decide_out default_config 1 100 100 p) p = false
  /\ trades a1 = trades a /\ mean_r a1 = mean_r a /\ M2 a1 = M2 a.
Proof.
  intros a p a1.
  assert (H : stays_open 1 (decide_out default_config 1 100 100 p) p = false)
    by reflexivity.
  split; [exact H |].
  destruct (trade_statistics_only_on_tp_sl default_config (1 # 10) (1 # 10))
    as [Hstep _].
  destruct (Hstep 1 1%nat 100 100 p [] a [] H)
    as (_ & _ & _ & _ & _ & _ & Hflat).
  destruct (Hflat eq_refl) as (_ & Ht & Hm & HM & _).
  exact (conj Ht (conj Hm HM)).
Defined.

(** C4 at a run with one FLAT, one TP and one SL resolution. *)
Lemma trades_tally_excludes_flat_witness :
  simulate_system_for_metrics example_lib default_config swing4
                              (1 # 10) (1 # 10) 1 100000
  = Py.Returned (Some swing4_result)
  /\ r_trades swing4_result
     = count_tp_sl (run_resolutions default_config swing4 (1 # 10) (1 # 10) 1)
  /\ Z.of_nat (List.length
                 (run_resolutions default_config swing4 (1 # 10) (1 # 10) 1))
     = (r_trades swing4_result
        + count_flat (run_resolutions default_config swing4
                                      (1 # 10) (1 # 10) 1))%Z.
Proof.
  assert (H : simulate_system_for_metrics example_lib default_config swing4
                                          (1 # 10) (1 # 10) 1 100000
              = Py.Returned (Some swing4_result))
    by (vm_compute; reflexivity).
  split; [exact H |].
  destruct (trades_tally_excludes_flat example_lib default_config swing4
              (1 # 10) (1 # 10) 1 100000 swing4_result H) as (H1 & H2 & _).
  exact (conj H1 H2).
Defined.

(** C4 as stated fails: on [quiet3] two FLAT expiries occur and the
    reported trade count is zero, and on no input does the reported
    count exceed the number of TP and SL resolutions. *)
Lemma flat_expiry_not_in_trades_tally :
  (run_resolutions default_config quiet3 (1 # 10) (1 # 10) 1 = [0%Z; 0%Z]
   /\ simulate_system_for_metrics example_lib default_config quiet3
                                  (1 # 10) (1 # 10) 1 100000
      = Py.Returned (Some quiet3_result)
   /\ r_trades quiet3_result = 0%Z
   /\ r_trades_per_year quiet3_result = Some (0 / r_years quiet3_result))
  /\ ~ (exists lib cfg df tp_frac sl_frac horizon_days start_equity r,
           simulate_system_for_metrics lib cfg df tp_frac sl_frac
                                       horizon_days start_equity
           = Py.Returned (Some r)
           /\ (0 < count_flat (run_resolutions cfg df tp_frac sl_frac
                                               horizon_days))%Z
           /\ (count_tp_sl (run_resolutions cfg df tp_frac sl_frac
                                            horizon_days)
               < r_trades r)%Z).
Proof.
  split.
  - repeat split; vm_compute; reflexivity.
  - intros (lib & cfg & df & tp_frac & sl_frac & horizon_days & start_equity
            & r & Hr & _ & Hlt).
    apply simulate_trades in Hr. lia.
Qed.


(** C6 at a FLAT resolution with weight one half. *)
Lemma effective_return_on_resolution_witness :
  let a := init_acc 100000 in
  pnl_linear_sum (close_position default_config (1 # 2) (1 # 10) (1 # 10) a 0)
  = pnl_linear_sum a
    + eff_return default_config (1 # 2) (1 # 10) (1 # 10) 0.
Proof.
  intro a.
  destruct (effective_return_on_resolution default_config (1 # 2) (1 # 10)
                                           (1 # 10))
    as (_ & _ & _ & _ & Hany & _).
  exact (proj1 (Hany 0%Z (or_intror (or_intror eq_refl)) a)).
Defined.



(** C8 as stated fails: on [crash3] the compounded return is above [-1]
    and the reported CAGR is the NaN marker. *)
Lemma cagr_undefined_above_minus_one :
  simulate_system_for_metrics example_lib default_config crash3
                              (1 # 10) (997899 # 1000000) 1 100000
  = Py.Returned (Some crash3_result)
  /\ - (1) < r_compounded_return crash3_result
  /\ 0 < r_years crash3_result
  /\ r_compounded_cagr crash3_result = None.
Proof.
  repeat split; vm_compute; reflexivity.
Qed.

(** C8 on the runs of [swing4] and [crash3]. *)
Lemma compounded_cagr_guard_witness :
  (exists p,
      float_pow example_lib (1 + r_compounded_return swing4_result)
                (1 / r_years swing4_result) = Py.Returned p
      /\ r_compounded_cagr swing4_result = Some (p - 1))
  /\ r_compounded_cagr crash3_result = None.
Proof.
  split.
  - assert (H : simulate_system_for_metrics example_lib default_config swing4
                                            (1 # 10) (1 # 10) 1 100000
                = Py.Returned (Some swing4_result))
      by (vm_compute; reflexivity).
    destruct (compounded_cagr_guard example_lib default_config swing4
                (1 # 10) (1 # 10) 1 100000 swing4_result H)
      as (_ & _ & Hdef & _).
    apply Hdef. vm_compute. reflexivity.
  - assert (H : simulate_system_for_metrics example_lib default_config crash3
                                            (1 # 10) (997899 # 1000000) 1
                                            100000
                = Py.Returned (Some crash3_result))
      by (vm_compute; reflexivity).
    destruct (compounded_cagr_guard example_lib default_config crash3
                (1 # 10) (997899 # 1000000) 1 100000 crash3_result H)
      as (_ & _ & _ & Hnan).
    apply Hnan. vm_compute. discriminate.
Defined.

(** C9 as stated fails: with reversed TP bounds and a non-positive
    horizon range the grid run raises nothing and simulates all eight
    combinations. *)
Lemma reversed_bounds_run_to_completion :
  TP_MAX reversed_config < TP_MIN reversed_config
  /\ (HORIZON_MAX reversed_config <= 0)%Z
  /\ exists rows,
      grid_loop example_lib reversed_config quiet3 = Py.Returned (8%Z, rows)
      /\ run_grid_search example_lib reversed_config quiet3 = Py.Returned rows
      /\ List.length rows = 8%nat
      /\ map (fun row => r_horizon_days (row_stats row)) rows
         = [1; 1; 1; 1; 1; 1; 1; 1]%Z.
Proof.
  split; [reflexivity |]. split; [discriminate |].
  eexists. split; [vm_compute; reflexivity |].
  split; [vm_compute; reflexivity |]. split; reflexivity.
Qed.

(** C9 on the reversed configuration. *)
Lemma grid_runs_without_validation_witness :
  exists rows,
    run_grid_search example_lib reversed_config quiet3 = Py.Returned rows
    /\ List.length rows = 8%nat.
Proof.
  destruct (grid_runs_without_validation example_lib reversed_config quiet3)
    as (Hrun & _).
  assert (Hn : (3 <= List.length quiet3)%nat) by (simpl; lia).
  destruct (Hrun Hn) as (Hret & _).
  destruct Hret as (rows & _ & Hr & Hl).
  { intros c e Hin Hc. vm_compute in Hin.
    repeat (destruct Hin as [<- | Hin];
            [vm_compute in Hc; discriminate |]).
    exact Hin. }
  exists rows. split; [exact Hr | exact Hl].
Defined.

(** C10 on [quiet3] with horizon [-3]. *)
Lemma horizon_is_clamped_witness :
  (-3 <= 0)%Z
  /\ simulate_system_for_metrics example_lib default_config quiet3
                                 (1 # 10) (1 # 10) (-3) 100000
     = simulate_system_for_metrics example_lib default_config quiet3
                                   (1 # 10) (1 # 10) 1 100000.
Proof.
  assert (H : (-3 <= 0)%Z) by lia.
  split; [exact H |].
  destruct (horizon_is_clamped example_lib default_config quiet3
              (1 # 10) (1 # 10) (-3) 100000) as (_ & Hneg & _).
  exact (Hneg H).
Defined.

(** The sum of squares kept by the loop adds the square of the deviation
    from the updated mean; it is not the sum of squared deviations from
    the final mean.  After one TP and one SL of ten percent at weight one
    the loop holds 0.01 where the squared deviations sum to 0.02. *)
Remark m2_after_one_tp_one_sl :
  let a := fold_left (close_position default_config 1 (1 # 10) (1 # 10))
                     [1%Z; (-1)%Z] (init_acc 100000) in
  let x1 := eff_return default_config 1 (1 # 10) (1 # 10) 1 in
  let x2 := eff_return default_config 1 (1 # 10) (1 # 10) (-1) in
  trades a = 2%Z
  /\ mean_r a == (x1 + x2) / 2
  /\ M2 a == 1 # 100
  /\ (x1 - mean_r a) * (x1 - mean_r a) + (x2 - mean_r a) * (x2 - mean_r a)
     == 2 # 100.
Proof.
  repeat split; vm_compute; reflexivity.
Qed.

(** With at least three rows and a zero starting capital the division of
    line 345 raises: the simulator returns no value at all. *)
Remark simulate_raises_on_zero_capital
       (lib : FloatLib) (cfg : Config) (df : DataFrame)
       (tp_frac sl_frac : Q) (horizon_days : Z) :
  (3 <= List.length df)%nat ->
  simulate_system_for_metrics lib cfg df tp_frac sl_frac horizon_days 0
  = Py.Raised Py.ZeroDivisionError.
Proof.
  intro Hn. rewrite simulate_long by exact Hn.
  now rewrite finish_raises by reflexivity.
Qed.

(** One simulation that raises ends the grid run: on [same_day3] the
    first combination of the default grid already overflows, and the run
    raises without a row. *)
Remark grid_run_stops_at_overflow :
  run_grid_search example_lib default_config same_day3
  = Py.Raised Py.OverflowError.
Proof. vm_compute. reflexivity. Qed.

(** ** Further invariants of the accumulators *)

Lemma pymin_le_l (a b : Q) : Py.min a b <= a.
Proof.
  unfold Py.min. destruct (Py.Qltb b a) eqn:E.
  - apply Qlt_le_weak. now apply Qltb_true.
  - apply Qle_refl.
Qed.

Lemma pymin_le_r (a b : Q) : Py.min a b <= b.
Proof.
  unfold Py.min. destruct (Py.Qltb b a) eqn:E.
  - apply Qle_refl.
  - now apply Qltb_false.
Qed.

Lemma pymin_glb (a b c : Q) : c <= a -> c <= b -> c <= Py.min a b.
Proof. intros Ha Hb. unfold Py.min. now destruct (Py.Qltb b a). Qed.

Section Accumulators.

Variable cfg : Config.
Variables w tp_frac sl_frac : Q.

Let close := close_position cfg w tp_frac sl_frac.

Lemma close_position_dd_min (a : Acc) (out : Z) :
  dd_min (close a out) <= dd_min a.
Proof.
  unfold close, close_position.
  destruct (out =? 1)%Z; [| destruct (out =? -1)%Z]; simpl;
    apply pymin_le_l.
Qed.

Lemma fold_close_dd_min (outs : list Z) :
  forall a : Acc, dd_min (fold_left close outs a) <= dd_min a.
Proof.
  induction outs as [| o outs IH]; intro a; [apply Qle_refl |].
  simpl. eapply Qle_trans; [apply IH | apply close_position_dd_min].
Qed.

Lemma close_position_label1 (a : Acc) (out : Z) :
  label1_count (close a out)
  = if (out =? 1)%Z then (label1_count a + 1)%Z else label1_count a.
Proof.
  unfold close, close_position.
  destruct (out =? 1)%Z; [| destruct (out =? -1)%Z]; reflexivity.
Qed.

Lemma fold_close_label1 (outs : list Z) :
  forall a : Acc,
    label1_count (fold_left close outs a)
    = (label1_count a + count_tp outs)%Z.
Proof.
  unfold count_tp.
  induction outs as [| o outs IH]; intros a; simpl; [lia |].
  rewrite IH. rewrite close_position_label1.
  destruct (o =? 1)%Z; cbn [Datatypes.length]; lia.
Qed.

(** With no trade counted the mean and the sum of squares are still
    zero. *)
Lemma fold_close_untouched (outs : list Z) :
  forall a : Acc,
    (0 <= trades a)%Z ->
    trades (fold_left close outs a) = 0%Z ->
    mean_r (fold_left close outs a) = mean_r a
    /\ M2 (fold_left close outs a) = M2 a.
Proof.
  unfold close.
  induction outs as [| o outs IH]; intros a Ht H0; [split; reflexivity |].
  cbn [fold_left] in *.
  pose proof (close_position_trades cfg w tp_frac sl_frac a o) as Hstep.
  rewrite fold_close_trades in H0.
  assert (Hc : (0 <= count_tp_sl outs)%Z) by (unfold count_tp_sl; lia).
  assert (Hsame : (o =? 1)%Z || (o =? -1)%Z = false)
    by (destruct (_ || _); [lia | reflexivity]).
  rewrite Hsame in Hstep.
  destruct (IH (close_position cfg w tp_frac sl_frac a o)) as [Hm HM].
  - lia.
  - rewrite fold_close_trades. lia.
  - rewrite Hm, HM. apply orb_false_iff in Hsame. destruct Hsame as [E1 E2].
    unfold close_position. rewrite E1, E2. split; reflexivity.
Qed.

End Accumulators.

Lemma count_tp_le (outs : list Z) : (0 <= count_tp outs <= count_tp_sl outs)%Z.
Proof.
  unfold count_tp, count_tp_sl. split; [lia |].
  induction outs as [| o outs IH]; [reflexivity |].
  cbn [filter]. destruct (o =? 1)%Z; cbn [orb Datatypes.length].
  - lia.
  - destruct (o =? -1)%Z; cbn [Datatypes.length]; lia.
Qed.

Lemma count_tp_sl_split (outs : list Z) :
  count_tp_sl outs = (count_tp outs + count_sl outs)%Z.
Proof.
  unfold count_tp, count_sl, count_tp_sl.
  induction outs as [| o outs IH]; [reflexivity |].
  cbn [filter].
  destruct (Z.eq_dec o 1) as [-> | H1];
    [cbn [Z.eqb Pos.eqb orb Datatypes.length]; lia |].
  destruct (Z.eq_dec o (-1)) as [-> | H2];
    [cbn [Z.eqb Pos.eqb orb Datatypes.length]; lia |].
  apply Z.eqb_neq in H1, H2. rewrite H1, H2. cbn [orb]. exact IH.
Qed.

(** The final accumulators of a call that returned a result. *)
Lemma simulate_result_acc (lib : FloatLib) (cfg : Config) (df : DataFrame)
      (tp_frac sl_frac : Q) (horizon_days : Z) (start_equity : Q)
      (r : SimulationResult) :
  simulate_system_for_metrics lib cfg df tp_frac sl_frac horizon_days
                              start_equity
  = Py.Returned (Some r) ->
  let w := 1 / inject_Z (clamp_horizon horizon_days) in
  let outs := run_resolutions cfg df tp_frac sl_frac horizon_days in
  let a := fold_left (close_position cfg w tp_frac sl_frac) outs
                     (init_acc start_equity) in
  (3 <= List.length df)%nat
  /\ ~ start_equity == 0
  /\ finish lib tp_frac sl_frac (clamp_horizon horizon_days) (years_of df)
            start_equity a
     = Py.Returned r.
Proof.
  intros Hr w outs a. apply simulate_result_inv in Hr.
  destruct Hr as [Hn Hf]. rewrite run_bars_spec in Hf. cbn [fst] in Hf.
  split; [exact Hn |]. split; [| exact Hf].
  intro H0. fold w in Hf. rewrite finish_raises in Hf by exact H0.
  discriminate.
Qed.

(** X1: the reported maximum drawdown lies between 0 and 1 and its
    percent variant between 0 and 100. *)
Theorem max_drawdown_bounds
        (lib : FloatLib) (cfg : Config) (df : DataFrame)
        (tp_frac sl_frac : Q) (horizon_days : Z) (start_equity : Q)
        (r : SimulationResult) :
  simulate_system_for_metrics lib cfg df tp_frac sl_frac horizon_days
                              start_equity
  = Py.Returned (Some r) ->
  0 <= r_max_drawdown r <= 1
  /\ r_max_drawdown_pct r = r_max_drawdown r * 100
  /\ 0 <= r_max_drawdown_pct r <= 100.
Proof.
  intro Hr. apply simulate_result_acc in Hr. destruct Hr as (_ & Hs & Hf).
  unfold finish in Hf. rewrite truediv_returns in Hf by exact Hs.
  cbn [Py.bind] in Hf.
  destruct (compounded_cagr_of _ _ _) in Hf; cbn [Py.bind] in Hf;
    [| discriminate].
  injection Hf as <-. cbn [r_max_drawdown r_max_drawdown_pct].
  match goal with
  | |- context [Py.min (- dd_min ?a) 1] =>
      assert (Hd : dd_min a <= 0)
        by (eapply Qle_trans; [apply fold_close_dd_min | apply Qle_refl]);
      pose proof (pymin_le_r (- dd_min a) 1) as Hle;
      assert (Hge : 0 <= Py.min (- dd_min a) 1)
        by (apply pymin_glb; lra)
  end.
  repeat split; try assumption; lra.
Qed.

(** Opens a hypothesis [simulate ... = Returned (Some r)]: replaces [r]
    by the record built by [finish] on the final accumulators. *)
Ltac open_result Hr :=
  let Hn := fresh "Hn" in
  let Hs := fresh "Hs" in
  let Hf := fresh "Hf" in
  apply simulate_result_acc in Hr; destruct Hr as (Hn & Hs & Hf);
  unfold finish in Hf; rewrite truediv_returns in Hf by exact Hs;
  cbn [Py.bind] in Hf;
  destruct (compounded_cagr_of _ _ _) in Hf; cbn [Py.bind] in Hf;
  [injection Hf as <- | discriminate].

(** X2: the reported [label1_ratio] lies between 0 and 1; multiplied by
    the trade count it is the number of TP resolutions of the run. *)
Theorem label1_ratio_bounds
        (lib : FloatLib) (cfg : Config) (df : DataFrame)
        (tp_frac sl_frac : Q) (horizon_days : Z) (start_equity : Q)
        (r : SimulationResult) :
  simulate_system_for_metrics lib cfg df tp_frac sl_frac horizon_days
                              start_equity
  = Py.Returned (Some r) ->
  let outs := run_resolutions cfg df tp_frac sl_frac horizon_days in
  0 <= r_label1_ratio r <= 1
  /\ r_label1_ratio r * inject_Z (r_trades r) == inject_Z (count_tp outs).
Proof.
  intros Hr outs. open_result Hr.
  cbn [r_label1_ratio r_trades].
  rewrite fold_close_trades, fold_close_label1. cbn [init_acc trades label1_count].
  fold outs. rewrite !Z.add_0_l.
  pose proof (count_tp_le outs) as [H0 Hle].
  destruct (0 <? count_tp_sl outs)%Z eqn:E.
  - apply Z.ltb_lt in E.
    assert (Hpos : 0 < inject_Z (count_tp_sl outs))
      by (unfold Qlt; simpl; lia).
    assert (HL : 0 <= inject_Z (count_tp outs))
      by (unfold Qle; simpl; lia).
    assert (HT : inject_Z (count_tp outs) <= inject_Z (count_tp_sl outs))
      by (unfold Qle; simpl; lia).
    split; [split |].
    + apply Qle_shift_div_l; [exact Hpos | lra].
    + apply Qle_shift_div_r; [exact Hpos | lra].
    + field. lra.
  - apply Z.ltb_ge in E.
    assert (Hz : count_tp_sl outs = 0%Z) by lia.
    assert (Hz' : count_tp outs = 0%Z) by lia.
    rewrite Hz, Hz'. split; [split; discriminate | reflexivity].
Qed.


(** X4: a run without any TP or SL resolution reports the documented
    defaults: [label1_ratio] and the mean trade return are zero and the
    Sharpe ratio is NaN; the Sharpe ratio is defined only from two
    counted trades on. *)
Theorem zero_trades_defaults
        (lib : FloatLib) (cfg : Config) (df : DataFrame)
        (tp_frac sl_frac : Q) (horizon_days : Z) (start_equity : Q)
        (r : SimulationResult) :
  simulate_system_for_metrics lib cfg df tp_frac sl_frac horizon_days
                              start_equity
  = Py.Returned (Some r) ->
  (r_trades r = 0%Z ->
   r_label1_ratio r = 0 /\ r_pnl_per_trade r = 0
   /\ r_sharpe_annual r = None
   /\ r_trades_per_year r = Some (0 / r_years r))
  /\ (r_sharpe_annual r <> None -> (2 <= r_trades r)%Z).
Proof.
  intro Hr. open_result Hr.
  cbn [r_trades r_label1_ratio r_pnl_per_trade r_sharpe_annual
       r_trades_per_year r_years].
  split.
  - intro H0.
    assert (Hinit : (0 <= trades (init_acc start_equity))%Z) by (simpl; lia).
    destruct (fold_close_untouched cfg _ tp_frac sl_frac _ _ Hinit H0)
      as [Hm _].
    rewrite H0, Hm. cbn [Z.ltb Z.compare init_acc mean_r].
    assert (Hy : Py.Qltb 0 (years_of df) = true)
      by (apply Qltb_true, years_of_pos).
    rewrite Hy. repeat split.
  - intro Hsh.
    match goal with
    | |- (2 <= ?t)%Z => destruct (1 <? t)%Z eqn:E
    end.
    + apply Z.ltb_lt in E. lia.
    + exfalso. apply Hsh. reflexivity.
Qed.

(** ** Positions opened, closed and open *)

Section Conservation.

Variable cfg : Config.
Variable df : DataFrame.
Variables tp_frac sl_frac : Q.
Variable h : Z.

Let opened := new_position df tp_frac sl_frac h.

(** On a bar every scanned position is either closed or kept. *)
Lemma closed_kept_length (i : nat) (hi lo : Q) (open_pos : list Position) :
  (List.length (closed_on cfg i hi lo open_pos)
   + List.length (kept_on cfg i hi lo open_pos))%nat
  = List.length open_pos.
Proof.
  unfold closed_on, kept_on. rewrite length_map, Nat.add_comm.
  apply filter_length.
Qed.

(** Positions are neither lost nor invented along the bars. *)
Lemma resolutions_length (idxs : list nat) :
  forall open_pos : list Position,
    (List.length (resolutions cfg df tp_frac sl_frac h idxs open_pos)
     + List.length (open_after cfg df tp_frac sl_frac h idxs open_pos))%nat
    = (List.length open_pos + List.length idxs)%nat.
Proof.
  induction idxs as [| i rest IH]; intro open_pos.
  - simpl. lia.
  - cbn [resolutions open_after]. rewrite length_app, <- Nat.add_assoc, IH.
    cbn [Datatypes.length].
    pose proof (closed_kept_length i (High (iloc df i)) (Low (iloc df i))
                                   (open_pos ++ [opened i])) as H.
    rewrite length_app in H. cbn [Datatypes.length] in H.
    unfold opened in H. lia.
Qed.

(** After the last bar of the frame nothing is open. *)
Lemma open_after_all_bars :
  (1 <= h)%Z ->
  open_after cfg df tp_frac sl_frac h (Py.range 1 (List.length df)) [] = [].
Proof.
  intro Hh. set (n := List.length df).
  destruct (Nat.le_gt_cases n 1) as [Hn | Hn].
  - unfold Py.range. replace (n - 1)%nat with 0%nat by lia. reflexivity.
  - destruct (open_after cfg df tp_frac sl_frac h (Py.range 1 n) [])
      as [| p l] eqn:E; [reflexivity | exfalso].
    pose proof (open_after_origin cfg df tp_frac sl_frac h (Py.range 1 n))
      as Ho.
    rewrite E in Ho. apply Forall_inv in Ho. destruct Ho as (i & Hi & Hp).
    apply in_range in Hi.
    replace n with (S (n - 1)) in E by lia.
    rewrite range_snoc in E by lia.
    pose proof (open_after_expiry cfg df tp_frac sl_frac h
                                  (Py.range 1 (n - 1)) (n - 1)) as He.
    rewrite E in He. apply Forall_inv in He.
    rewrite Hp in He. simpl in He. fold n in He. lia.
Qed.

(** The positions open after some bars were opened on distinct bars. *)
Lemma open_after_distinct (idxs : list nat) :
  NoDup idxs ->
  exists js,
    open_after cfg df tp_frac sl_frac h idxs [] = map opened js
    /\ NoDup js /\ incl js idxs.
Proof.
  induction idxs as [| k idxs IH] using rev_ind; intro Hnd.
  - exists []. repeat split; [constructor | apply incl_refl].
  - apply NoDup_remove in Hnd. rewrite app_nil_r in Hnd.
    destruct Hnd as [Hnd Hk]. destruct (IH Hnd) as (js & E & Hjs & Hin).
    rewrite open_after_snoc, E. unfold kept_on.
    change (map opened js ++ [new_position df tp_frac sl_frac h k])
      with (map opened js ++ map opened [k]).
    rewrite <- map_app, filter_map_swap.
    eexists. split; [reflexivity |]. split.
    + apply NoDup_filter. apply NoDup_app; [exact Hjs | | ].
      * constructor; [intros [] | constructor].
      * intros a Ha [<- | []]. apply Hk, Hin, Ha.
    + intros a Ha. apply filter_In in Ha. destruct Ha as [Ha _].
      apply in_app_or in Ha. apply in_or_app.
      destruct Ha as [Ha | Ha]; [left; now apply Hin | now right].
Qed.

End Conservation.

(** X5: every bar after the first opens one position and every position
    is resolved by the end of the run: the run has exactly [n - 1]
    resolutions, so the reported trades and the FLAT expiries add up to
    [n - 1] and the trade count is at most [n - 1]. *)
Theorem one_resolution_per_bar
        (lib : FloatLib) (cfg : Config) (df : DataFrame)
        (tp_frac sl_frac : Q) (horizon_days : Z) (start_equity : Q)
        (r : SimulationResult) :
  simulate_system_for_metrics lib cfg df tp_frac sl_frac horizon_days
                              start_equity
  = Py.Returned (Some r) ->
  let n := List.length df in
  let outs := run_resolutions cfg df tp_frac sl_frac horizon_days in
  List.length outs = (n - 1)%nat
  /\ (r_trades r + count_flat outs = Z.of_nat n - 1)%Z
  /\ (0 <= r_trades r <= Z.of_nat n - 1)%Z.
Proof.
  intros Hr n outs.
  assert (Hlen : List.length outs = (n - 1)%nat).
  { pose proof (resolutions_length cfg df tp_frac sl_frac
                  (clamp_horizon horizon_days) (Py.range 1 n) []) as H.
    rewrite open_after_all_bars in H by (unfold clamp_horizon; lia).
    rewrite range_length in H. cbn [Datatypes.length] in H.
    unfold outs, run_resolutions. fold n. lia. }
  pose proof (simulate_trades _ _ _ _ _ _ _ _ Hr) as Ht. fold outs in Ht.
  pose proof (count_split outs (resolutions_codes _ _ _ _ _ _ _)) as Hc.
  apply simulate_result_inv in Hr. destruct Hr as [Hn _]. fold n in Hn.
  assert (H0 : (0 <= count_flat outs)%Z) by (unfold count_flat; lia).
  assert (H1 : (0 <= count_tp_sl outs)%Z) by (unfold count_tp_sl; lia).
  rewrite Hlen in Hc. split; [exact Hlen |]. lia.
Qed.

Section LinearSum.

Variable cfg : Config.
Variables w tp_frac sl_frac : Q.

Let eff := eff_return cfg w tp_frac sl_frac.

(** The linear sum over a sequence of resolutions. *)
Lemma fold_close_pnl (outs : list Z) :
  forall a : Acc,
    pnl_linear_sum (fold_left (close_position cfg w tp_frac sl_frac) outs a)
    = fold_left (fun s out => s + eff out) outs (pnl_linear_sum a).
Proof.
  induction outs as [| o outs IH]; intro a; [reflexivity |].
  cbn [fold_left]. rewrite IH. f_equal.
  unfold eff, close_position, eff_return, raw_return.
  destruct (o =? 1)%Z; [| destruct (o =? -1)%Z]; reflexivity.
Qed.

(** The sum of the net returns by kind of resolution. *)
Lemma sum_eff_by_kind (outs : list Z) :
  Forall (fun o => o = 1%Z \/ o = (-1)%Z \/ o = 0%Z) outs ->
  forall s0 : Q,
    fold_left (fun s out => s + eff out) outs s0
    == s0 + w * (tp_frac * inject_Z (count_tp outs)
                 - sl_frac * inject_Z (count_sl outs)
                 - TOTAL_COST_FRAC cfg
                   * inject_Z (Z.of_nat (List.length outs))).
Proof.
  induction 1 as [| o outs Ho _ IH]; intro s0.
  - simpl. unfold count_tp, count_sl. simpl. ring.
  - cbn [fold_left]. rewrite IH.
    assert (Hl : inject_Z (Z.of_nat (List.length (o :: outs)))
                 == inject_Z (Z.of_nat (List.length outs)) + 1).
    { cbn [Datatypes.length]. rewrite Nat2Z.inj_succ, <- Z.add_1_r.
      rewrite inject_Z_plus. reflexivity. }
    rewrite Hl. clear Hl.
    unfold eff, eff_return, raw_return, count_tp, count_sl.
    destruct Ho as [-> | [-> | ->]];
      cbn [filter Z.eqb Pos.eqb Datatypes.length];
      rewrite ?Nat2Z.inj_succ, <- ?Z.add_1_r, ?inject_Z_plus;
      change (inject_Z 1) with 1; ring.
Qed.

End LinearSum.

(** X6: the reported linear P&L in closed form: the weight times the
    gains of the TP resolutions minus the losses of the SL resolutions
    minus the cost of each of the [n - 1] positions of the run. *)
Theorem pnl_linear_closed_form
        (lib : FloatLib) (cfg : Config) (df : DataFrame)
        (tp_frac sl_frac : Q) (horizon_days : Z) (start_equity : Q)
        (r : SimulationResult) :
  simulate_system_for_metrics lib cfg df tp_frac sl_frac horizon_days
                              start_equity
  = Py.Returned (Some r) ->
  let n := List.length df in
  let w := 1 / inject_Z (clamp_horizon horizon_days) in
  let outs := run_resolutions cfg df tp_frac sl_frac horizon_days in
  r_pnl_linear r
  == w * (tp_frac * inject_Z (count_tp outs)
          - sl_frac * inject_Z (count_sl outs)
          - TOTAL_COST_FRAC cfg * inject_Z (Z.of_nat n - 1))
  /\ r_pnl_linear_pct r = r_pnl_linear r * 100
  /\ r_pnl_linear_per_year r = r_pnl_linear r / r_years r.
Proof.
  intros Hr n w outs.
  assert (Hlen : Z.of_nat (List.length outs) = (Z.of_nat n - 1)%Z).
  { pose proof (resolutions_length cfg df tp_frac sl_frac
                  (clamp_horizon horizon_days) (Py.range 1 n) []) as H.
    rewrite open_after_all_bars in H by (unfold clamp_horizon; lia).
    rewrite range_length in H. cbn [Datatypes.length] in H.
    pose proof (simulate_result_inv _ _ _ _ _ _ _ _ Hr) as [Hn _].
    fold n in Hn. unfold outs, run_resolutions. fold n. lia. }
  open_result Hr.
  cbn [r_pnl_linear r_pnl_linear_pct r_pnl_linear_per_year r_years].
  split; [| split; reflexivity].
  fold w outs. rewrite fold_close_pnl. cbn [init_acc pnl_linear_sum].
  rewrite sum_eff_by_kind by apply resolutions_codes.
  rewrite Hlen. ring.
Qed.

Lemma subrange_length (js : list nat) (lo k : nat) :
  NoDup js -> (forall j, In j js -> (lo <= j <= k)%nat) ->
  (List.length js <= S k - lo)%nat.
Proof.
  intros Hnd Hin.
  apply Nat.le_trans with (m := List.length (seq lo (S k - lo)));
    [| rewrite length_seq; lia].
  apply NoDup_incl_length; [exact Hnd |].
  intros j Hj. apply in_seq. specialize (Hin j Hj). lia.
Qed.

(** X7: after bar [k] at most [h - 1] positions are open, [h] the
    clamped horizon: with the one opened on the next bar at most [h]
    positions of weight [1 / h] are exposed at any time. *)
Theorem open_positions_bounded
        (cfg : Config) (df : DataFrame) (tp_frac sl_frac : Q)
        (horizon_days : Z) (start_equity : Q) (k : nat) :
  (1 <= k)%nat ->
  let h := clamp_horizon horizon_days in
  let open_pos :=
    snd (run_bars cfg df tp_frac sl_frac horizon_days start_equity
                  (Py.range 1 (S k))) in
  (Z.of_nat (List.length open_pos) <= h - 1)%Z
  /\ (List.length open_pos <= k)%nat
  /\ inject_Z (Z.of_nat (List.length open_pos) + 1) * (1 / inject_Z h) <= 1.
Proof.
  intros Hk h open_pos.
  assert (Hh : (1 <= h)%Z) by (unfold h, clamp_horizon; lia).
  unfold open_pos. rewrite run_bars_spec. cbn [snd]. fold h.
  destruct (open_after_distinct cfg df tp_frac sl_frac h (Py.range 1 (S k)))
    as (js & E & Hnd & Hin); [apply seq_NoDup |].
  pose proof (open_after_expiry cfg df tp_frac sl_frac h (Py.range 1 k) k)
    as He.
  rewrite <- range_snoc in He by exact Hk. rewrite E in He.
  rewrite E, length_map.
  assert (Hj : forall j, In j js ->
                         (Z.to_nat (Z.max 1 (Z.of_nat k - h + 2)) <= j <= k)%nat).
  { intros j Hj. pose proof (Hin j Hj) as Hr. apply in_range in Hr.
    rewrite Forall_forall in He.
    pose proof (He _ (in_map _ _ _ Hj)) as Hx. simpl in Hx. lia. }
  pose proof (subrange_length js _ k Hnd Hj) as Hlen.
  assert (Hb : (Z.of_nat (List.length js) <= h - 1)%Z) by lia.
  split; [exact Hb |]. split; [lia |].
  assert (Hq : 0 < inject_Z h) by (unfold Qlt; simpl; lia).
  assert (Hx : inject_Z (Z.of_nat (List.length js) + 1) <= inject_Z h)
    by (rewrite <- Zle_Qle; lia).
  setoid_replace (inject_Z (Z.of_nat (List.length js) + 1) * (1 / inject_Z h))
    with (inject_Z (Z.of_nat (List.length js) + 1) / inject_Z h)
    by (field; lra).
  apply Qle_shift_div_r; [exact Hq | lra].
Qed.

(** ** Runs that take the same decisions *)

Section SameDecisions.

Variables cfg1 cfg2 : Config.
Variables df1 df2 : DataFrame.
Variables tp_frac sl_frac : Q.
Variable h : Z.

(** Two positions that a scan cannot tell apart on bars [(hi1, lo1)] and
    [(hi2, lo2)]. *)
Let alike (i : nat) (hi1 lo1 hi2 lo2 : Q) (p1 p2 : Position) : Prop :=
  decide_out cfg1 i hi1 lo1 p1 = decide_out cfg2 i hi2 lo2 p2
  /\ expiry p1 = expiry p2.

Lemma closed_kept_alike (i : nat) (hi1 lo1 hi2 lo2 : Q)
      (R : Position -> Position -> Prop) :
  (forall p1 p2, R p1 p2 -> alike i hi1 lo1 hi2 lo2 p1 p2) ->
  forall l1 l2,
    Forall2 R l1 l2 ->
    closed_on cfg1 i hi1 lo1 l1 = closed_on cfg2 i hi2 lo2 l2
    /\ Forall2 R (kept_on cfg1 i hi1 lo1 l1) (kept_on cfg2 i hi2 lo2 l2).
Proof.
  intros HR l1 l2 H. unfold closed_on, kept_on.
  induction H as [| p1 p2 l1 l2 Hp _ [IHc IHk]]; [split; constructor |].
  destruct (HR _ _ Hp) as [Hd He]. cbn [filter].
  assert (Hs : stays_open i (decide_out cfg1 i hi1 lo1 p1) p1
               = stays_open i (decide_out cfg2 i hi2 lo2 p2) p2)
    by (unfold stays_open; now rewrite Hd, He).
  rewrite Hs.
  destruct (stays_open i (decide_out cfg2 i hi2 lo2 p2) p2); cbn [negb map].
  - split; [exact IHc | constructor; assumption].
  - split; [now rewrite IHc, Hd | exact IHk].
Qed.

Lemma resolutions_alike (R : Position -> Position -> Prop) (idxs : list nat) :
  (forall i p1 p2, R p1 p2 ->
                   alike i (High (iloc df1 i)) (Low (iloc df1 i))
                         (High (iloc df2 i)) (Low (iloc df2 i)) p1 p2) ->
  (forall i, R (new_position df1 tp_frac sl_frac h i)
               (new_position df2 tp_frac sl_frac h i)) ->
  forall l1 l2,
    Forall2 R l1 l2 ->
    resolutions cfg1 df1 tp_frac sl_frac h idxs l1
    = resolutions cfg2 df2 tp_frac sl_frac h idxs l2.
Proof.
  intros HR Hnew. induction idxs as [| i rest IH]; intros l1 l2 H;
    [reflexivity |].
  cbn [resolutions].
  destruct (closed_kept_alike i (High (iloc df1 i)) (Low (iloc df1 i))
              (High (iloc df2 i)) (Low (iloc df2 i)) R (HR i)
              (l1 ++ [new_position df1 tp_frac sl_frac h i])
              (l2 ++ [new_position df2 tp_frac sl_frac h i]))
    as [Hc Hk].
  - apply Forall2_app; [exact H | constructor; [apply Hnew | constructor]].
  - rewrite Hc. f_equal. now apply IH.
Qed.

End SameDecisions.

(** Two calls with the same cost, frame length, dates and resolutions
    return the same value. *)
Lemma simulate_same_resolutions
      (lib : FloatLib) (cfg1 cfg2 : Config) (df1 df2 : DataFrame)
      (tp_frac sl_frac : Q) (horizon_days : Z) (start_equity : Q) :
  TOTAL_COST_FRAC cfg1 = TOTAL_COST_FRAC cfg2 ->
  List.length df1 = List.length df2 ->
  years_of df1 = years_of df2 ->
  resolutions cfg1 df1 tp_frac sl_frac (clamp_horizon horizon_days)
              (Py.range 1 (List.length df1)) []
  = resolutions cfg2 df2 tp_frac sl_frac (clamp_horizon horizon_days)
                (Py.range 1 (List.length df2)) [] ->
  simulate_system_for_metrics lib cfg1 df1 tp_frac sl_frac horizon_days
                              start_equity
  = simulate_system_for_metrics lib cfg2 df2 tp_frac sl_frac horizon_days
                                start_equity.
Proof.
  intros Hc Hl Hy Hres.
  destruct (Nat.lt_ge_cases (List.length df1) 3) as [Hn | Hn].
  - rewrite !simulate_short by lia. reflexivity.
  - rewrite !simulate_long by lia. rewrite !run_bars_spec. cbn [fst].
    rewrite Hres, Hy.
    assert (Hclose : forall w a o,
               close_position cfg1 w tp_frac sl_frac a o
               = close_position cfg2 w tp_frac sl_frac a o).
    { intros w a o. unfold close_position. now rewrite Hc. }
    assert (Hfold : forall w outs a,
               fold_left (close_position cfg1 w tp_frac sl_frac) outs a
               = fold_left (close_position cfg2 w tp_frac sl_frac) outs a).
    { intros w outs. induction outs as [| o outs IH]; intro a;
        [reflexivity |]. cbn [fold_left]. now rewrite Hclose, IH. }
    now rewrite Hfold.
Qed.

(** X8: the fill policy is never validated: every value of
    [AMBIGUOUS_FILL] other than ["TP_FIRST"] gives the result of
    ["SL_FIRST"]. *)
Theorem unknown_policy_is_sl_first
        (lib : FloatLib) (cfg : Config) (df : DataFrame)
        (tp_frac sl_frac : Q) (horizon_days : Z) (start_equity : Q) :
  AMBIGUOUS_FILL cfg <> "TP_FIRST"%string ->
  simulate_system_for_metrics lib cfg df tp_frac sl_frac horizon_days
                              start_equity
  = simulate_system_for_metrics lib (with_policy cfg "SL_FIRST") df
                                tp_frac sl_frac horizon_days start_equity.
Proof.
  intro Hp. apply simulate_same_resolutions; try reflexivity.
  apply resolutions_alike with (R := eq); [| reflexivity | constructor].
  intros i p1 p2 <-. split; [| reflexivity].
  unfold decide_out. cbn [AMBIGUOUS_FILL with_policy].
  apply String.eqb_neq in Hp. rewrite Hp. reflexivity.
Qed.

(** ** The two fill policies compared *)

Section Policies.

Variable cfg : Config.

Let cfgS := with_policy cfg "SL_FIRST".
Let cfgT := with_policy cfg "TP_FIRST".

(** An outcome under the pessimistic policy against the one under the
    optimistic policy: the same, or SL against TP. *)
Let worse (s t : Z) : Prop := s = t \/ (s = (-1)%Z /\ t = 1%Z).

Lemma decide_out_policies (i : nat) (hi lo : Q) (p : Position) :
  worse (decide_out cfgS i hi lo p) (decide_out cfgT i hi lo p).
Proof.
  unfold worse, decide_out. cbn [AMBIGUOUS_FILL cfgS cfgT with_policy].
  destruct (Qle_bool (tp_level p) hi), (Qle_bool lo (sl_level p)); cbn;
    auto.
Qed.

Lemma stays_open_policies (i : nat) (hi lo : Q) (p : Position) :
  stays_open i (decide_out cfgS i hi lo p) p
  = stays_open i (decide_out cfgT i hi lo p) p.
Proof.
  destruct (decide_out_policies i hi lo p) as [-> | [-> ->]]; reflexivity.
Qed.

Lemma kept_on_policies (i : nat) (hi lo : Q) (l : list Position) :
  kept_on cfgS i hi lo l = kept_on cfgT i hi lo l.
Proof.
  unfold kept_on. apply filter_ext. intro p. apply stays_open_policies.
Qed.

Lemma closed_on_policies (i : nat) (hi lo : Q) (l : list Position) :
  Forall2 worse (closed_on cfgS i hi lo l) (closed_on cfgT i hi lo l).
Proof.
  unfold closed_on. induction l as [| p l IH]; [constructor |].
  cbn [filter]. rewrite stays_open_policies.
  destruct (stays_open i (decide_out cfgT i hi lo p) p); cbn [negb map];
    [exact IH |].
  constructor; [apply decide_out_policies | exact IH].
Qed.

Lemma resolutions_policies (df : DataFrame) (tp_frac sl_frac : Q) (h : Z)
      (idxs : list nat) :
  forall open_pos,
    Forall2 worse (resolutions cfgS df tp_frac sl_frac h idxs open_pos)
            (resolutions cfgT df tp_frac sl_frac h idxs open_pos).
Proof.
  induction idxs as [| i rest IH]; intro open_pos; [constructor |].
  cbn [resolutions]. rewrite kept_on_policies.
  apply Forall2_app; [apply closed_on_policies | apply IH].
Qed.

Lemma worse_counts (ss ts : list Z) :
  Forall2 worse ss ts ->
  count_tp_sl ss = count_tp_sl ts /\ (count_tp ss <= count_tp ts)%Z.
Proof.
  unfold count_tp_sl, count_tp.
  induction 1 as [| s t ss ts Hst _ [IH1 IH2]]; [split; reflexivity |].
  cbn [filter].
  destruct Hst as [-> | [-> ->]].
  - destruct ((t =? 1)%Z || (t =? -1)%Z), (t =? 1)%Z;
      cbn [Datatypes.length]; lia.
  - cbn [Z.eqb Pos.eqb orb Datatypes.length]. lia.
Qed.

Lemma worse_sums (w tp_frac sl_frac : Q) (ss ts : list Z) :
  0 <= w -> 0 <= tp_frac + sl_frac ->
  Forall2 worse ss ts ->
  forall s0 t0 : Q,
    s0 <= t0 ->
    fold_left (fun s out => s + eff_return cfgS w tp_frac sl_frac out) ss s0
    <= fold_left (fun s out => s + eff_return cfgT w tp_frac sl_frac out)
                 ts t0.
Proof.
  intros Hw Hts H. induction H as [| s t ss ts Hst _ IH]; intros s0 t0 H0;
    [exact H0 |].
  cbn [fold_left]. apply IH.
  assert (Hcost : TOTAL_COST_FRAC cfgS = TOTAL_COST_FRAC cfgT) by reflexivity.
  unfold eff_return. rewrite Hcost.
  destruct Hst as [-> | [-> ->]]; [lra |].
  unfold raw_return. cbn [Z.eqb Pos.eqb].
  assert (Hm : 0 <= w * (tp_frac + sl_frac)) by (apply Qmult_le_0_compat; lra).
  lra.
Qed.

End Policies.

(** X10: the optimistic policy never looks worse than the pessimistic
    one: on the same input, with [tp_frac + sl_frac >= 0] as for the
    positive fractions of the grid, both report the same number of
    trades, and with ["TP_FIRST"] the linear P&L and the share of TP
    trades are at least those with ["SL_FIRST"]. *)
Theorem tp_first_dominates_sl_first
        (lib : FloatLib) (cfg : Config) (df : DataFrame)
        (tp_frac sl_frac : Q) (horizon_days : Z) (start_equity : Q)
        (rS rT : SimulationResult) :
  0 <= tp_frac + sl_frac ->
  simulate_system_for_metrics lib (with_policy cfg "SL_FIRST") df
                              tp_frac sl_frac horizon_days start_equity
  = Py.Returned (Some rS) ->
  simulate_system_for_metrics lib (with_policy cfg "TP_FIRST") df
                              tp_frac sl_frac horizon_days start_equity
  = Py.Returned (Some rT) ->
  r_trades rS = r_trades rT
  /\ r_pnl_linear rS <= r_pnl_linear rT
  /\ r_label1_ratio rS <= r_label1_ratio rT.
Proof.
  intros Hts HS HT.
  pose proof (resolutions_policies cfg df tp_frac sl_frac
                (clamp_horizon horizon_days)
                (Py.range 1 (List.length df)) []) as Hres.
  pose proof (worse_counts _ _ Hres) as [Hc Hl].
  assert (Hh : 0 < inject_Z (clamp_horizon horizon_days))
    by (unfold Qlt, clamp_horizon; simpl; lia).
  assert (Hw : 0 <= 1 / inject_Z (clamp_horizon horizon_days))
    by (apply Qle_shift_div_l; [exact Hh | lra]).
  open_result HS. open_result HT.
  cbn [r_trades r_pnl_linear r_label1_ratio].
  rewrite !fold_close_trades, !fold_close_label1, !fold_close_pnl.
  cbn [init_acc trades label1_count pnl_linear_sum].
  unfold run_resolutions. rewrite !Z.add_0_l, Hc.
  split; [reflexivity |]. split.
  - apply worse_sums; [exact Hw | exact Hts | exact Hres | apply Qle_refl].
  - destruct (0 <? _)%Z eqn:E; [| apply Qle_refl].
    apply Z.ltb_lt in E.
    apply Qmult_le_compat_r.
    + rewrite <- Zle_Qle. exact Hl.
    + apply Qinv_le_0_compat. unfold Qle. simpl. lia.
Qed.

(** ** The grid as one loop over the combinations *)


Lemma simulate_keys (lib : FloatLib) (cfg : Config) (df : DataFrame)
      (tp_frac sl_frac : Q) (horizon_days : Z) (start_equity : Q)
      (r : SimulationResult) :
  simulate_system_for_metrics lib cfg df tp_frac sl_frac horizon_days
                              start_equity
  = Py.Returned (Some r) ->
  r_tp_frac r = tp_frac /\ r_sl_frac r = sl_frac
  /\ r_horizon_days r = Z.max horizon_days 1.
Proof.
  intro Hr. open_result Hr. repeat split.
Qed.

(** X11: the grid frame is complete and ordered.  On at least three
    bars a run that returns holds one row per combination, in the order
    of the three nested loops (TP outermost, horizon innermost); each row
    is the simulator's result for its combination, keyed by its TP, its
    SL and its clamped horizon, with [spread = tp_frac - sl_frac].  The
    run returns whenever no simulation raises; when it raises, the
    exception is that of the first combination in loop order whose
    simulation raises, every earlier one having returned a result. *)
Theorem grid_rows_follow_combinations
        (lib : FloatLib) (cfg : Config) (df : DataFrame) :
  (3 <= List.length df)%nat ->
  let simulate c :=
    simulate_system_for_metrics lib cfg df (fst (fst c)) (snd (fst c)) (snd c)
                                (START_CAPITAL cfg) in
  (forall rows,
      run_grid_search lib cfg df = Py.Returned rows ->
      Forall2 (fun c row => simulate c = Py.Returned (Some (row_stats row)))
              (grid_combos cfg) rows
      /\ map (fun row => (r_tp_frac (row_stats row),
                          r_sl_frac (row_stats row),
                          r_horizon_days (row_stats row), row_spread row))
             rows
         = map (fun c => (fst (fst c), snd (fst c), Z.max (snd c) 1,
                          fst (fst c) - snd (fst c)))
               (grid_combos cfg))
  /\ ((forall c e, In c (grid_combos cfg) -> simulate c <> Py.Raised e) ->
      exists rows, run_grid_search lib cfg df = Py.Returned rows)
  /\ (forall e,
         run_grid_search lib cfg df = Py.Raised e ->
         exists pre c post,
           grid_combos cfg = pre ++ c :: post
           /\ Forall (fun c1 => exists r, simulate c1 = Py.Returned (Some r))
                     pre
           /\ simulate c = Py.Raised e).
Proof.
  intros Hn simulate. split; [| split].
  - intros rows Hrun.
    destruct (grid_run_returned lib cfg df rows Hn Hrun) as [_ HF].
    clear Hrun.
    induction HF as [| c row combos rows1 [Hsim Hsp] _ [IH1 IH2]].
    + split; [apply Forall2_nil | reflexivity].
    + split; [apply Forall2_cons; assumption |].
      cbn [map]. rewrite IH2, Hsp.
      destruct (simulate_keys _ _ _ _ _ _ _ _ Hsim) as (-> & -> & ->).
      reflexivity.
  - now apply grid_run_returns.
  - intros e Hrun. now apply grid_run_raised.
Qed.

(** ** The day-by-day simulator *)

Lemma array_update_at {A : Type} (f : A -> A) (l1 : list A) (x : A)
      (l2 : list A) :
  array_update (List.length l1) f (l1 ++ x :: l2) = l1 ++ f x :: l2.
Proof.
  induction l1 as [| y l1 IH]; [reflexivity |].
  cbn [Datatypes.length app array_update]. now rewrite IH.
Qed.

Lemma array_update_length {A : Type} (f : A -> A) (l : list A) :
  forall i, List.length (array_update i f l) = List.length l.
Proof.
  induction l as [| x l IH]; intros [| i]; cbn [array_update Datatypes.length];
    try reflexivity.
  now rewrite IH.
Qed.

Section Daily.

Variable cfg : Config.

(** The decision never is "expired" before the expiry: the test that
    would keep a position open cannot succeed. *)
Lemma decide_daily_never_stays (i : nat) (hi lo : Q) (p : Position) :
  out_is (fst (decide_daily cfg i hi lo p)) 0
  && (Z.of_nat i <? expiry p)%Z = false.
Proof.
  unfold decide_daily.
  destruct (Qle_bool (tp_level p) hi), (Qle_bool lo (sl_level p));
    cbn [andb fst out_is];
    try (destruct (String.eqb _ _); reflexivity); try reflexivity.
  destruct (expiry p <=? Z.of_nat i)%Z eqn:E; cbn [fst out_is];
    [| reflexivity].
  apply Z.leb_le in E. cbn [Z.eqb andb].
  apply Z.ltb_ge. exact E.
Qed.

(** The raw return is that of the code of the grid simulator. *)
Lemma decide_daily_return (tp_frac sl_frac : Q) (i : nat) (hi lo : Q)
      (p : Position) :
  daily_raw_return tp_frac sl_frac (fst (decide_daily cfg i hi lo p))
  = raw_return tp_frac sl_frac (decide_out cfg i hi lo p).
Proof.
  unfold decide_daily, decide_out, daily_raw_return, raw_return.
  destruct (Qle_bool (tp_level p) hi), (Qle_bool lo (sl_level p));
    cbn [andb fst out_is];
    try (destruct (String.eqb _ _); reflexivity); try reflexivity.
  destruct (expiry p <=? Z.of_nat i)%Z; reflexivity.
Qed.

(** The label written for a position, from its code. *)
Lemma decide_daily_label (i : nat) (hi lo : Q) (p : Position) :
  snd (decide_daily cfg i hi lo p)
  = let out := decide_out cfg i hi lo p in
    if (out =? 1)%Z then Some "TP"%string
    else if (out =? -1)%Z then Some "SL"%string
    else if (expiry p <=? Z.of_nat i)%Z then Some "FLAT"%string
    else None.
Proof.
  unfold decide_daily, decide_out.
  destruct (Qle_bool (tp_level p) hi), (Qle_bool lo (sl_level p));
    cbn [andb snd];
    try (destruct (String.eqb _ _); reflexivity); try reflexivity.
  destruct (expiry p <=? Z.of_nat i)%Z; reflexivity.
Qed.

(** The decision of the grid simulator does not read the expiry. *)
Lemma decide_out_levels (i : nat) (hi lo : Q) (p q : Position) :
  tp_level p = tp_level q -> sl_level p = sl_level q ->
  decide_out cfg i hi lo p = decide_out cfg i hi lo q.
Proof.
  intros Ht Hs. unfold decide_out. rewrite Ht, Hs.
  destruct (Qle_bool (tp_level q) hi), (Qle_bool lo (sl_level q));
    cbn [andb]; try reflexivity.
  destruct (expiry p <=? Z.of_nat i)%Z, (expiry q <=? Z.of_nat i)%Z;
    reflexivity.
Qed.

Variables w tp_frac sl_frac : Q.

(** One step of the scan: the position is closed, whatever it is. *)
Lemma daily_scan_cons (i : nat) (hi lo : Q) (p : Position)
      (rest : list Position) (realized : list Q)
      (scenario : list (option string)) (still : list Position) :
  daily_scan cfg w tp_frac sl_frac i hi lo (p :: rest) (realized, scenario)
             still
  = daily_scan cfg w tp_frac sl_frac i hi lo rest
      (array_update i
         (fun x => x + eff_return cfg w tp_frac sl_frac
                                  (decide_out cfg i hi lo p))
         realized,
       array_update i (fun _ => snd (decide_daily cfg i hi lo p)) scenario)
      still.
Proof.
  cbn [daily_scan].
  pose proof (decide_daily_never_stays i hi lo p) as Hn.
  pose proof (decide_daily_return tp_frac sl_frac i hi lo p) as Hr.
  destruct (decide_daily cfg i hi lo p) as [out scen].
  cbn [fst snd] in *. rewrite Hn, Hr. reflexivity.
Qed.

Lemma daily_scan_still (i : nat) (hi lo : Q) (open_pos : list Position) :
  forall arrays still,
    snd (daily_scan cfg w tp_frac sl_frac i hi lo open_pos arrays still)
    = still.
Proof.
  induction open_pos as [| p rest IH]; intros [realized scenario] still;
    [reflexivity |].
  rewrite daily_scan_cons. apply IH.
Qed.

End Daily.

Section DailyLoop.

Variable cfg : Config.
Variable df : DataFrame.
Variables tp_frac sl_frac : Q.
Variable horizon_days : Z.

Let n := List.length df.
Let h := clamp_horizon horizon_days.
Let w := 1 / inject_Z h.
Let opened := new_position df tp_frac sl_frac h.

(** What bar [i] adds to its cell and the label it writes there. *)
Let gain (i : nat) : Q :=
  eff_return cfg w tp_frac sl_frac
             (decide_out cfg i (High (iloc df i)) (Low (iloc df i))
                         (opened i)).
Let label (i : nat) : option string :=
  snd (decide_daily cfg i (High (iloc df i)) (Low (iloc df i)) (opened i)).

Lemma daily_bar_empty (realized : list Q) (scenario : list (option string))
      (i : nat) :
  daily_bar cfg df w tp_frac sl_frac h ((realized, scenario), []) i
  = ((array_update i (fun x => x + gain i) realized,
      array_update i (fun _ => label i) scenario), []).
Proof.
  unfold daily_bar. cbn [app]. rewrite daily_scan_cons. reflexivity.
Qed.

Lemma daily_loop_prefix (k : nat) :
  (S k <= n)%nat ->
  daily_loop cfg df tp_frac sl_frac horizon_days (Py.range 1 (S k))
  = ((0 :: map (fun i => 0 + gain i) (seq 1 k) ++ repeat 0 (n - S k),
      Some ""%string :: map label (seq 1 k)
        ++ repeat (Some ""%string) (n - S k)),
     []).
Proof.
  induction k as [| k IH]; intro Hk.
  - unfold daily_loop, Py.range. fold n. cbn [seq fold_left map app Nat.sub].
    destruct n as [| m]; [lia |]. cbn [repeat Nat.sub].
    now rewrite Nat.sub_0_r.
  - rewrite range_snoc by lia.
    assert (Hsnoc : forall l i,
               daily_loop cfg df tp_frac sl_frac horizon_days (l ++ [i])
               = daily_bar cfg df w tp_frac sl_frac h
                   (daily_loop cfg df tp_frac sl_frac horizon_days l) i)
      by (intros l i; unfold daily_loop; now rewrite fold_left_app).
    rewrite Hsnoc, IH by lia.
    rewrite daily_bar_empty.
    replace (n - S k)%nat with (S (n - S (S k))) by lia. cbn [repeat].
    assert (Hl1 : List.length (0 :: map (fun i => 0 + gain i) (seq 1 k))
                  = S k)
      by (cbn [Datatypes.length]; now rewrite length_map, length_seq).
    assert (Hl2 : List.length (Some ""%string :: map label (seq 1 k)) = S k)
      by (cbn [Datatypes.length]; now rewrite length_map, length_seq).
    pose proof (array_update_at (fun x => x + gain (S k))
                  (0 :: map (fun i => 0 + gain i) (seq 1 k)) 0
                  (repeat 0 (n - S (S k)))) as H1.
    pose proof (array_update_at (fun _ => label (S k))
                  (Some ""%string :: map label (seq 1 k)) (Some ""%string)
                  (repeat (Some ""%string) (n - S (S k)))) as H2.
    rewrite Hl1 in H1. rewrite Hl2 in H2.
    rewrite !app_comm_cons, H1, H2.
    rewrite !seq_S, !map_app. cbn [map Nat.add].
    rewrite <- !app_comm_cons, <- !app_assoc. reflexivity.
Qed.

Lemma simulate_daily_spec :
  (3 <= n)%nat ->
  simulate_daily_realized_pnl_parallel cfg df tp_frac sl_frac horizon_days
  = (0 :: map (fun i => 0 + gain i) (Py.range 1 n),
     Some ""%string :: map label (Py.range 1 n)).
Proof.
  intro Hn. unfold simulate_daily_realized_pnl_parallel. fold n.
  assert (E : (n <? 3)%nat = false) by (apply Nat.ltb_ge; exact Hn).
  rewrite E.
  replace (Py.range 1 n) with (Py.range 1 (S (n - 1)))
    by (f_equal; lia).
  rewrite daily_loop_prefix by lia.
  replace (n - S (n - 1))%nat with 0%nat by lia.
  cbn [repeat fst]. rewrite !app_nil_r. unfold Py.range.
  now replace (S (n - 1) - 1)%nat with (n - 1)%nat by lia.
Qed.

End DailyLoop.

(** The day-by-day series in terms of the opening-day codes. *)
Lemma simulate_daily_codes (cfg : Config) (df : DataFrame)
      (tp_frac sl_frac : Q) (horizon_days : Z) :
  (3 <= List.length df)%nat ->
  let n := List.length df in
  let h := clamp_horizon horizon_days in
  let w := 1 / inject_Z h in
  let code := opening_day_code cfg df tp_frac sl_frac in
  simulate_daily_realized_pnl_parallel cfg df tp_frac sl_frac horizon_days
  = (0 :: map (fun i => 0 + eff_return cfg w tp_frac sl_frac (code i))
              (Py.range 1 n),
     Some ""%string
       :: map (fun i =>
                 if (code i =? 1)%Z then Some "TP"%string
                 else if (code i =? -1)%Z then Some "SL"%string
                 else if (Z.min (Z.of_nat i + h - 1) (Z.of_nat n - 1)
                          <=? Z.of_nat i)%Z
                      then Some "FLAT"%string
                      else None)
              (Py.range 1 n)).
Proof.
  intros Hn n h w code. rewrite simulate_daily_spec by exact Hn.
  assert (Hcode : forall i,
             decide_out cfg i (High (iloc df i)) (Low (iloc df i))
                        (new_position df tp_frac sl_frac h i)
             = code i)
    by (intro i; apply decide_out_levels; reflexivity).
  f_equal; f_equal; apply map_ext; intro i.
  - fold h. now rewrite Hcode.
  - fold h. rewrite decide_daily_label. cbv zeta. now rewrite Hcode.
Qed.

(** X12: the day-by-day simulator never carries a position over: the
    list [still] comes out of every scan as it went in, so each position
    is closed on the bar that opens it.  The returned series hold, for
    each bar after the first, the net return and the label of that
    bar's own position judged on that bar alone, where a position that
    hits nothing before its expiry costs [w * cost] and is labelled
    [None]. *)
Theorem daily_closes_on_opening_bar
        (cfg : Config) (df : DataFrame) (tp_frac sl_frac : Q)
        (horizon_days : Z) :
  (forall (w : Q) (i : nat) (hi lo : Q) (open_pos : list Position)
          (arrays : list Q * list (option string)) (still : list Position),
      snd (daily_scan cfg w tp_frac sl_frac i hi lo open_pos arrays still)
      = still)
  /\ ((3 <= List.length df)%nat ->
      let n := List.length df in
      let h := clamp_horizon horizon_days in
      let w := 1 / inject_Z h in
      let code := opening_day_code cfg df tp_frac sl_frac in
      simulate_daily_realized_pnl_parallel cfg df tp_frac sl_frac
                                           horizon_days
      = (0 :: map (fun i => 0 + eff_return cfg w tp_frac sl_frac (code i))
                  (Py.range 1 n),
         Some ""%string
           :: map (fun i =>
                     if (code i =? 1)%Z then Some "TP"%string
                     else if (code i =? -1)%Z then Some "SL"%string
                     else if (Z.min (Z.of_nat i + h - 1) (Z.of_nat n - 1)
                              <=? Z.of_nat i)%Z
                          then Some "FLAT"%string
                          else None)
                  (Py.range 1 n))).
Proof.
  split.
  - intros. apply daily_scan_still.
  - apply simulate_daily_codes.
Qed.

(** X13: in the day-by-day simulator the horizon only sets the weight:
    the realized series for any horizon is the series for horizon 1
    divided by the clamped horizon. *)
Theorem daily_horizon_only_rescales
        (cfg : Config) (df : DataFrame) (tp_frac sl_frac : Q)
        (horizon_days : Z) :
  Forall2 (fun x y => x == y / inject_Z (clamp_horizon horizon_days))
          (fst (simulate_daily_realized_pnl_parallel
                  cfg df tp_frac sl_frac horizon_days))
          (fst (simulate_daily_realized_pnl_parallel
                  cfg df tp_frac sl_frac 1)).
Proof.
  destruct (Nat.lt_ge_cases (List.length df) 3) as [Hn | Hn].
  - unfold simulate_daily_realized_pnl_parallel.
    apply Nat.ltb_lt in Hn. rewrite Hn. constructor.
  - rewrite !simulate_daily_codes by exact Hn. cbn [fst].
    assert (Hh : 0 < inject_Z (clamp_horizon horizon_days))
      by (unfold Qlt, clamp_horizon; simpl; lia).
    constructor; [field; lra |].
    induction (Py.range 1 (List.length df)) as [| i l IH]; [constructor |].
    cbn [map]. constructor; [| exact IH].
    unfold eff_return. change (inject_Z (clamp_horizon 1)) with 1.
    field. lra.
Qed.

(** With horizon 1 the grid simulator closes every position on its
    opening bar. *)
Lemma resolutions_horizon_one (cfg : Config) (df : DataFrame)
      (tp_frac sl_frac : Q) (idxs : list nat) :
  resolutions cfg df tp_frac sl_frac 1 idxs []
  = map (opening_day_code cfg df tp_frac sl_frac) idxs.
Proof.
  induction idxs as [| i rest IH]; [reflexivity |].
  cbn [resolutions map app].
  assert (Hs : stays_open i (opening_day_code cfg df tp_frac sl_frac i)
                          (new_position df tp_frac sl_frac 1 i) = false).
  { unfold stays_open, new_position. cbn [expiry].
    apply andb_false_iff. right. apply Z.ltb_ge. lia. }
  unfold closed_on, kept_on. cbn [filter]. fold (opening_day_code cfg df tp_frac sl_frac i).
  rewrite Hs. cbn [negb map app]. now rewrite IH.
Qed.

Lemma total_of_gains (g : Z -> Q) (codes : list Z) :
  forall s0 s1 : Q,
    s0 == s1 ->
    fold_left Qplus (map (fun c => 0 + g c) codes) s0
    == fold_left (fun s c => s + g c) codes s1.
Proof.
  induction codes as [| c codes IH]; intros s0 s1 H; [exact H |].
  cbn [map fold_left]. apply IH. rewrite H. ring.
Qed.

(** X14: the two simulators agree on the linear P&L for a horizon of at
    most 1, where the sum of the day-by-day series is the [pnl_linear]
    of the grid simulator; for a larger horizon they can differ, as on
    [swing4] with horizon 5. *)
Theorem daily_total_matches_grid_at_horizon_one :
  (forall (lib : FloatLib) (cfg : Config) (df : DataFrame)
          (tp_frac sl_frac : Q) (horizon_days : Z) (start_equity : Q)
          (r : SimulationResult),
      (horizon_days <= 1)%Z ->
      simulate_system_for_metrics lib cfg df tp_frac sl_frac horizon_days
                                  start_equity
      = Py.Returned (Some r) ->
      total (fst (simulate_daily_realized_pnl_parallel
                    cfg df tp_frac sl_frac horizon_days))
      == r_pnl_linear r)
  /\ (simulate_system_for_metrics example_lib default_config swing4
                                  (1 # 10) (1 # 10) 5 100000
      = Py.Returned (Some swing4_h5_result)
      /\ ~ total (fst (simulate_daily_realized_pnl_parallel
                         default_config swing4 (1 # 10) (1 # 10) 5))
           == r_pnl_linear swing4_h5_result).
Proof.
  split.
  - intros lib cfg df tp_frac sl_frac horizon_days start_equity r Hh Hr.
    pose proof (simulate_result_inv _ _ _ _ _ _ _ _ Hr) as [Hn _].
    rewrite simulate_daily_codes by exact Hn. cbn [fst].
    open_result Hr. cbn [r_pnl_linear].
    rewrite fold_close_pnl. cbn [init_acc pnl_linear_sum].
    unfold run_resolutions.
    assert (Hc : clamp_horizon horizon_days = 1%Z)
      by (unfold clamp_horizon; lia).
    rewrite Hc, resolutions_horizon_one.
    unfold total. cbn [fold_left].
    rewrite <- (map_map (opening_day_code cfg df tp_frac sl_frac)
                        (fun c => 0 + eff_return cfg (1 / inject_Z 1)
                                                 tp_frac sl_frac c)).
    apply total_of_gains. ring.
  - split; [vm_compute; reflexivity |].
    vm_compute. intro H. discriminate H.
Qed.

(** ** The exported curve and metrics *)





Lemma simulate_drawdown_pct_range
      (lib : FloatLib) (cfg : Config) (df : DataFrame)
      (tp_frac sl_frac : Q) (horizon_days : Z) (start_equity : Q)
      (r : SimulationResult) :
  simulate_system_for_metrics lib cfg df tp_frac sl_frac horizon_days
                              start_equity
  = Py.Returned (Some r) ->
  0 <= r_max_drawdown_pct r.
Proof.
  intro Hr. open_result Hr. cbn [r_max_drawdown_pct].
  match goal with
  | |- context [Py.min (- dd_min ?a) 1] =>
      assert (Hd : dd_min a <= 0)
        by (eapply Qle_trans; [apply fold_close_dd_min | apply Qle_refl]);
      assert (Hge : 0 <= Py.min (- dd_min a) 1)
        by (apply pymin_glb; lra)
  end.
  lra.
Qed.

(** X16: the ["max_drawdown"] entry written by [export_metrics_json] is
    zero for every row the simulator can produce, whatever its
    drawdown, and the ["return_drawdown_ratio"] entry is never
    written. *)
Theorem exported_max_drawdown_is_zero
        (lib : FloatLib) (cfg : Config) (df : DataFrame)
        (tp_frac sl_frac : Q) (horizon_days : Z) (start_equity : Q)
        (best : SimulationResult) :
  simulate_system_for_metrics lib cfg df tp_frac sl_frac horizon_days
                              start_equity
  = Py.Returned (Some best) ->
  metrics_max_drawdown best = 0
  /\ metrics_return_drawdown_ratio best = None.
Proof.
  intro Hr. apply simulate_drawdown_pct_range in Hr.
  assert (Hm : metrics_max_drawdown best = 0).
  { unfold metrics_max_drawdown, Py.max, Py.min.
    destruct (Py.Qltb (- (100)) (r_max_drawdown_pct best)) eqn:E1.
    - destruct (Py.Qltb (r_max_drawdown_pct best) 0) eqn:E2;
        [| reflexivity].
      apply Qltb_true in E2. exfalso. lra.
    - apply Qltb_false in E1. exfalso. lra. }
  split; [exact Hm |].
  unfold metrics_return_drawdown_ratio. rewrite Hm. reflexivity.
Qed.






(** ** The candidate filter *)

Lemma cnn_mask_true (asset_cagr : Q) (row : GridRow) :
  cnn_mask asset_cagr row = true <->
  (CNN_MIN_TRADES <= r_trades (row_stats row))%Z
  /\ CNN_MIN_LABEL1 <= r_label1_ratio (row_stats row) <= CNN_MAX_LABEL1
  /\ CNN_MIN_SPREAD <= row_spread row
  /\ exists c, r_compounded_cagr (row_stats row) = Some c
               /\ asset_cagr - CNN_CAGR_TOLERANCE <= c.
Proof.
  unfold cnn_mask.
  rewrite !andb_true_iff, Z.leb_le, !Qle_bool_iff.
  destruct (r_compounded_cagr (row_stats row)) as [c |].
  - rewrite Qle_bool_iff. split.
    + intros [[[[Ht [Hl1 Hl2]] Hsp] Hc] _]. repeat split; try assumption.
      exists c. split; [reflexivity | exact Hc].
    + intros (Ht & [Hl1 Hl2] & Hsp & c' & Hc' & Hle).
      injection Hc' as <-. repeat split; assumption.
  - split.
    + intros [[_ Hc] _]. discriminate.
    + intros (_ & _ & _ & c & Hc & _). discriminate.
Qed.

Lemma cnn_mask_antitone (lower higher : Q) (row : GridRow) :
  lower <= higher ->
  cnn_mask higher row = true -> cnn_mask lower row = true.
Proof.
  intros Hle H. apply cnn_mask_true in H. apply cnn_mask_true.
  destruct H as (Ht & Hl & Hs & c & Hc & Hge).
  repeat split; try tauto. exists c. split; [exact Hc | lra].
Qed.

Lemma cnn_candidates_antitone (lower higher : Q) (rows : list GridRow) :
  lower <= higher ->
  (List.length (cnn_candidates (mark_cnn_candidates rows higher))
   <= List.length (cnn_candidates (mark_cnn_candidates rows lower)))%nat.
Proof.
  intro Hle. unfold cnn_candidates, mark_cnn_candidates.
  induction rows as [| row rest IH]; [apply Nat.le_refl |].
  cbn [map filter is_cnn_candidate].
  destruct (cnn_mask higher row) eqn:E.
  - rewrite (cnn_mask_antitone lower higher row Hle E).
    cbn [Datatypes.length]. lia.
  - destruct (cnn_mask lower row); cbn [Datatypes.length]; lia.
Qed.

(** X18: [mark_cnn_candidates] keeps the rows and their order; a row
    whose CAGR is NaN is never a candidate; the rank score of a
    candidate is its CAGR, which is at least the asset CAGR minus the
    tolerance, and the score of any other row is NaN; raising the asset
    CAGR can only remove candidates. *)
Theorem cnn_candidates_properties (rows : list GridRow) (asset_cagr : Q) :
  let marked := mark_cnn_candidates rows asset_cagr in
  map marked_row marked = rows
  /\ Forall (fun m =>
               (r_compounded_cagr (row_stats (marked_row m)) = None ->
                is_cnn_candidate m = false)
               /\ (is_cnn_candidate m = true ->
                   exists c,
                     cnn_rank_score m = Some c
                     /\ r_compounded_cagr (row_stats (marked_row m)) = Some c
                     /\ asset_cagr - CNN_CAGR_TOLERANCE <= c)
               /\ (is_cnn_candidate m = false -> cnn_rank_score m = None))
            marked
  /\ (forall higher : Q,
         asset_cagr <= higher ->
         forall row, cnn_mask higher row = true ->
                     cnn_mask asset_cagr row = true)
  /\ (forall higher : Q,
         asset_cagr <= higher ->
         (List.length (cnn_candidates (mark_cnn_candidates rows higher))
          <= List.length (cnn_candidates marked))%nat).
Proof.
  intro marked.
  split; [| split; [| split]].
  - unfold marked, mark_cnn_candidates. rewrite map_map. cbn [marked_row].
    apply map_id.
  - unfold marked, mark_cnn_candidates. apply Forall_forall. intros m Hm.
    apply in_map_iff in Hm. destruct Hm as (row & <- & _).
    cbn [marked_row is_cnn_candidate cnn_rank_score].
    split; [| split].
    + intro Hnan. unfold cnn_mask. rewrite Hnan.
      now rewrite !andb_false_r.
    + intro H. rewrite H. apply cnn_mask_true in H.
      destruct H as (_ & _ & _ & c & Hc & Hge).
      exists c. repeat split; assumption.
    + intro H. now rewrite H.
  - intros higher Hle row. now apply cnn_mask_antitone.
  - intros higher Hle. now apply cnn_candidates_antitone.
Qed.

(** The trade count is at most the number of bars after the first. *)
Lemma simulate_trades_le (lib : FloatLib) (cfg : Config) (df : DataFrame)
      (tp_frac sl_frac : Q) (horizon_days : Z) (start_equity : Q)
      (r : SimulationResult) :
  simulate_system_for_metrics lib cfg df tp_frac sl_frac horizon_days
                              start_equity
  = Py.Returned (Some r) ->
  (r_trades r <= Z.of_nat (List.length df) - 1)%Z.
Proof.
  intro Hr. set (n := List.length df).
  set (outs := run_resolutions cfg df tp_frac sl_frac horizon_days).
  assert (Hlen : List.length outs = (n - 1)%nat).
  { pose proof (resolutions_length cfg df tp_frac sl_frac
                  (clamp_horizon horizon_days) (Py.range 1 n) []) as H.
    rewrite open_after_all_bars in H by (unfold clamp_horizon; lia).
    rewrite range_length in H. cbn [Datatypes.length] in H.
    unfold outs, run_resolutions. fold n. lia. }
  pose proof (simulate_trades _ _ _ _ _ _ _ _ Hr) as Ht. fold outs in Ht.
  pose proof (count_split outs (resolutions_codes _ _ _ _ _ _ _)) as Hc.
  apply simulate_result_inv in Hr. destruct Hr as [Hn _]. fold n in Hn.
  assert (H0 : (0 <= count_flat outs)%Z) by (unfold count_flat; lia).
  rewrite Hlen in Hc. lia.
Qed.

(** A property of the rows collected so far is kept by the grid loop. *)
Lemma for_each_keeps {A S : Type} (f : S -> A -> Py.result S)
      (I : S -> Prop) :
  (forall s x s', I s -> f s x = Py.Returned s' -> I s') ->
  forall (l : list A) (s s' : S),
    I s -> for_each f l s = Py.Returned s' -> I s'.
Proof.
  intros Hf l. induction l as [| x l IH]; intros s s' Hs H.
  - injection H as <-. exact Hs.
  - cbn [for_each] in H. destruct (f s x) as [s1 | e] eqn:E;
      cbn [Py.bind] in H; [| discriminate].
    apply (IH s1 s'); [apply (Hf s x s1 Hs E) | exact H].
Qed.

(** Every row of the grid frame is a result of the simulator on the
    frame. *)
Lemma grid_rows_are_results (lib : FloatLib) (cfg : Config) (df : DataFrame)
      (rows : list GridRow) :
  run_grid_search lib cfg df = Py.Returned rows ->
  Forall (fun row =>
            exists tp sl h,
              simulate_system_for_metrics lib cfg df tp sl h
                                          (START_CAPITAL cfg)
              = Py.Returned (Some (row_stats row)))
         rows.
Proof.
  unfold run_grid_search. rewrite grid_loop_flat.
  destruct (for_each _ (grid_combos cfg) (0%Z, [])) as [s |] eqn:E;
    cbn [Py.bind]; [| discriminate].
  intro H. injection H as <-.
  apply (for_each_keeps
           (fun (s : Z * list GridRow) (c : Q * Q * Z) =>
              grid_body lib cfg df (fst (fst c)) (snd (fst c)) s (snd c))
           (fun s : Z * list GridRow =>
              Forall (fun row =>
                        exists tp sl h,
                          simulate_system_for_metrics lib cfg df tp sl h
                                                      (START_CAPITAL cfg)
                          = Py.Returned (Some (row_stats row)))
                     (snd s)))
    with (l := grid_combos cfg) (s := (0%Z, [])); [| constructor | exact E].
  intros [counter results] c s' Hres Hbody. unfold grid_body in Hbody.
  destruct (simulate_system_for_metrics lib cfg df (fst (fst c))
              (snd (fst c)) (snd c) (START_CAPITAL cfg))
    as [[st |] | e] eqn:Hsim; cbn [Py.bind] in Hbody;
    [| | discriminate]; injection Hbody as <-; cbn [snd] in *.
  - apply Forall_app. split; [exact Hres |].
    constructor; [| constructor]. cbn [row_stats].
    exists (fst (fst c)), (snd (fst c)), (snd c). exact Hsim.
  - exact Hres.
Qed.

(** X19: a history of at most 800 bars never yields a candidate: every
    row of its grid frame has at most [n - 1 < 800] trades, so
    [mark_cnn_candidates] flags none, whatever the asset CAGR. *)
Theorem short_history_has_no_candidate
        (lib : FloatLib) (cfg : Config) (df : DataFrame)
        (rows : list GridRow) (asset_cagr : Q) :
  (List.length df <= 800)%nat ->
  run_grid_search lib cfg df = Py.Returned rows ->
  cnn_candidates (mark_cnn_candidates rows asset_cagr) = []
  /\ Forall (fun m => is_cnn_candidate m = false)
            (mark_cnn_candidates rows asset_cagr).
Proof.
  intros Hn Hrun. apply grid_rows_are_results in Hrun.
  assert (Hall : Forall (fun m => is_cnn_candidate m = false)
                        (mark_cnn_candidates rows asset_cagr)).
  { unfold mark_cnn_candidates. apply Forall_forall. intros m Hm.
    apply in_map_iff in Hm. destruct Hm as (row & <- & Hrow).
    cbn [is_cnn_candidate]. rewrite Forall_forall in Hrun.
    destruct (Hrun row Hrow) as (tp & sl & h & Hsim).
    apply simulate_trades_le in Hsim.
    unfold cnn_mask.
    assert (E : (CNN_MIN_TRADES <=? r_trades (row_stats row))%Z = false)
      by (apply Z.leb_gt; unfold CNN_MIN_TRADES; lia).
    now rewrite E. }
  split; [| exact Hall].
  unfold cnn_candidates.
  induction Hall as [| m l Hm _ IH]; [reflexivity |].
  cbn [filter]. now rewrite Hm.
Qed.

(** ** Concrete instances of the further properties *)

Lemma swing4_run :
  simulate_system_for_metrics example_lib default_config swing4
                              (1 # 10) (1 # 10) 1 100000
  = Py.Returned (Some swing4_result).
Proof. vm_compute. reflexivity. Defined.

Lemma quiet3_run :
  simulate_system_for_metrics example_lib default_config quiet3
                              (1 # 10) (1 # 10) 1 100000
  = Py.Returned (Some quiet3_result).
Proof. vm_compute. reflexivity. Defined.

(** X1 on the run of [swing4]. *)
Lemma max_drawdown_bounds_witness :
  0 <= r_max_drawdown swing4_result <= 1
  /\ 0 <= r_max_drawdown_pct swing4_result <= 100.
Proof.
  destruct (max_drawdown_bounds example_lib default_config swing4
              (1 # 10) (1 # 10) 1 100000 swing4_result swing4_run)
    as (H1 & _ & H2).
  exact (conj H1 H2).
Defined.

(** X2 on the run of [swing4]: one TP among two trades. *)
Lemma label1_ratio_bounds_witness :
  0 <= r_label1_ratio swing4_result <= 1.
Proof.
  exact (proj1 (label1_ratio_bounds example_lib default_config swing4
                  (1 # 10) (1 # 10) 1 100000 swing4_result swing4_run)).
Defined.


(** X4 on the run of [quiet3], which has no trade. *)
Lemma zero_trades_defaults_witness :
  r_trades quiet3_result = 0%Z
  /\ r_label1_ratio quiet3_result = 0
  /\ r_sharpe_annual quiet3_result = None.
Proof.
  assert (H0 : r_trades quiet3_result = 0%Z) by reflexivity.
  split; [exact H0 |].
  destruct (zero_trades_defaults example_lib default_config quiet3
              (1 # 10) (1 # 10) 1 100000 quiet3_result quiet3_run)
    as [Hz _].
  destruct (Hz H0) as (H1 & _ & H2 & _).
  exact (conj H1 H2).
Defined.

(** X5 on the run of [swing4]: three resolutions for four bars. *)
Lemma one_resolution_per_bar_witness :
  List.length (run_resolutions default_config swing4 (1 # 10) (1 # 10) 1)
  = 3%nat
  /\ (0 <= r_trades swing4_result <= 3)%Z.
Proof.
  destruct (one_resolution_per_bar example_lib default_config swing4
              (1 # 10) (1 # 10) 1 100000 swing4_result swing4_run)
    as (H1 & _ & H2).
  exact (conj H1 H2).
Defined.

(** X6 on the run of [swing4]. *)
Lemma pnl_linear_closed_form_witness :
  r_pnl_linear swing4_result
  == 1 / inject_Z (clamp_horizon 1)
     * ((1 # 10)
        * inject_Z (count_tp (run_resolutions default_config swing4
                                              (1 # 10) (1 # 10) 1))
        - (1 # 10)
          * inject_Z (count_sl (run_resolutions default_config swing4
                                                (1 # 10) (1 # 10) 1))
        - TOTAL_COST_FRAC default_config
          * inject_Z (Z.of_nat (List.length swing4) - 1)).
Proof.
  exact (proj1 (pnl_linear_closed_form example_lib default_config swing4
                  (1 # 10) (1 # 10) 1 100000 swing4_result swing4_run)).
Defined.

(** X7 on [swing4] with horizon 2 after its second bar. *)
Lemma open_positions_bounded_witness :
  (1 <= 2)%nat
  /\ (Z.of_nat (List.length
                  (snd (run_bars default_config swing4 (1 # 10) (1 # 10) 2
                                 100000 (Py.range 1 3))))
      <= clamp_horizon 2 - 1)%Z.
Proof.
  assert (H : (1 <= 2)%nat) by lia.
  split; [exact H |].
  exact (proj1 (open_positions_bounded default_config swing4 (1 # 10)
                  (1 # 10) 2 100000 2 H)).
Defined.

(** X8 with a policy written in lower case. *)
Lemma unknown_policy_is_sl_first_witness :
  simulate_system_for_metrics
    example_lib (with_policy default_config "tp_first") swing4
    (1 # 10) (1 # 10) 1 100000
  = simulate_system_for_metrics
      example_lib
      (with_policy (with_policy default_config "tp_first") "SL_FIRST")
      swing4 (1 # 10) (1 # 10) 1 100000.
Proof.
  apply unknown_policy_is_sl_first. cbn. discriminate.
Defined.

(** X10 on [swing4], whose last bar spans both exits. *)
Lemma tp_first_dominates_sl_first_witness :
  r_trades swing4_result = r_trades swing4_tp_first_result
  /\ r_pnl_linear swing4_result <= r_pnl_linear swing4_tp_first_result.
Proof.
  assert (H0 : 0 <= (1 # 10) + (1 # 10)) by (apply Qle_bool_iff; reflexivity).
  assert (HS : simulate_system_for_metrics
                 example_lib (with_policy default_config "SL_FIRST") swing4
                 (1 # 10) (1 # 10) 1 100000
               = Py.Returned (Some swing4_result))
    by (vm_compute; reflexivity).
  assert (HT : simulate_system_for_metrics
                 example_lib (with_policy default_config "TP_FIRST") swing4
                 (1 # 10) (1 # 10) 1 100000
               = Py.Returned (Some swing4_tp_first_result))
    by (vm_compute; reflexivity).
  destruct (tp_first_dominates_sl_first example_lib default_config swing4
              (1 # 10) (1 # 10) 1 100000 swing4_result
              swing4_tp_first_result H0 HS HT) as (H1 & H2 & _).
  exact (conj H1 H2).
Defined.

(** X11 on [quiet3] under [reversed_config]. *)
Lemma grid_rows_follow_combinations_witness :
  (3 <= List.length quiet3)%nat
  /\ exists rows,
      run_grid_search example_lib reversed_config quiet3 = Py.Returned rows
      /\ map (fun row => (r_tp_frac (row_stats row),
                          r_sl_frac (row_stats row),
                          r_horizon_days (row_stats row), row_spread row))
             rows
         = map (fun c => (fst (fst c), snd (fst c), Z.max (snd c) 1,
                          fst (fst c) - snd (fst c)))
               (grid_combos reversed_config).
Proof.
  assert (Hn : (3 <= List.length quiet3)%nat) by (simpl; lia).
  split; [exact Hn |].
  destruct (grid_rows_follow_combinations example_lib reversed_config quiet3
              Hn) as (Hrows & Hret & _).
  destruct Hret as [rows Hr].
  { intros c e Hin Hc. vm_compute in Hin.
    repeat (destruct Hin as [<- | Hin];
            [vm_compute in Hc; discriminate |]).
    exact Hin. }
  exists rows. split; [exact Hr | exact (proj2 (Hrows rows Hr))].
Defined.

(** X12 on [swing4] with horizon 5: one cell per bar. *)
Lemma daily_closes_on_opening_bar_witness :
  (3 <= List.length swing4)%nat
  /\ List.length (fst (simulate_daily_realized_pnl_parallel
                         default_config swing4 (1 # 10) (1 # 10) 5))
     = 4%nat.
Proof.
  assert (Hn : (3 <= List.length swing4)%nat) by (simpl; lia).
  split; [exact Hn |].
  destruct (daily_closes_on_opening_bar default_config swing4
              (1 # 10) (1 # 10) 5) as [_ Hspec].
  rewrite (Hspec Hn). reflexivity.
Defined.

(** X14 on [swing4] with horizon 1. *)
Lemma daily_total_matches_grid_at_horizon_one_witness :
  (1 <= 1)%Z
  /\ total (fst (simulate_daily_realized_pnl_parallel
                   default_config swing4 (1 # 10) (1 # 10) 1))
     == r_pnl_linear swing4_result.
Proof.
  assert (H : (1 <= 1)%Z) by lia.
  split; [exact H |].
  exact (proj1 daily_total_matches_grid_at_horizon_one
               example_lib default_config swing4 (1 # 10) (1 # 10) 1%Z
               100000 swing4_result H swing4_run).
Defined.


(** X16 on the run of [swing4], whose drawdown is not zero. *)
Lemma exported_max_drawdown_is_zero_witness :
  0 < r_max_drawdown_pct swing4_result
  /\ metrics_max_drawdown swing4_result = 0
  /\ metrics_return_drawdown_ratio swing4_result = None.
Proof.
  split; [reflexivity |].
  exact (exported_max_drawdown_is_zero example_lib default_config swing4
           (1 # 10) (1 # 10) 1 100000 swing4_result swing4_run).
Defined.


(** X18 on the rows of [quiet3] with the asset CAGR raised from 0 to 1. *)
Lemma cnn_candidates_properties_witness :
  (List.length (cnn_candidates (mark_cnn_candidates quiet3_grid_rows 1))
   <= List.length (cnn_candidates (mark_cnn_candidates quiet3_grid_rows 0)))%nat.
Proof.
  destruct (cnn_candidates_properties quiet3_grid_rows 0) as (_ & _ & _ & H).
  apply H. apply Qle_bool_iff. reflexivity.
Defined.

(** X19 on the grid frame of [quiet3]. *)
Lemma short_history_has_no_candidate_witness :
  cnn_candidates (mark_cnn_candidates quiet3_grid_rows 0) = [].
Proof.
  assert (Hn : (List.length quiet3 <= 800)%nat) by (simpl; lia).
  assert (Hr : run_grid_search example_lib reversed_config quiet3
               = Py.Returned quiet3_grid_rows)
    by (vm_compute; reflexivity).
  exact (proj1 (short_history_has_no_candidate example_lib reversed_config
                  quiet3 quiet3_grid_rows 0 Hn Hr)).
Defined.

(** ** The mean trade return *)

Lemma traded_returns_by_kind (cfg : Config) (w tp_frac sl_frac : Q)
      (outs : list Z) :
  forall s0 : Q,
    traded_returns_from cfg w tp_frac sl_frac outs s0
    == s0 + w * (tp_frac * inject_Z (count_tp outs)
                 - sl_frac * inject_Z (count_sl outs)
                 - TOTAL_COST_FRAC cfg * inject_Z (count_tp_sl outs)).
Proof.
  unfold traded_returns_from.
  induction outs as [| o outs IH]; intro s0.
  - unfold count_tp, count_sl, count_tp_sl. simpl. ring.
  - cbn [fold_left]. rewrite IH. unfold count_tp, count_sl, count_tp_sl.
    cbn [filter].
    destruct (Z.eq_dec o 1) as [-> | H1].
    + cbn [Z.eqb Pos.eqb orb Datatypes.length].
      rewrite !Nat2Z.inj_succ, <- !Z.add_1_r, !inject_Z_plus.
      unfold eff_return, raw_return. cbn [Z.eqb Pos.eqb].
      change (inject_Z 1) with 1. ring.
    + destruct (Z.eq_dec o (-1)) as [-> | H2].
      * cbn [Z.eqb Pos.eqb orb Datatypes.length].
        rewrite !Nat2Z.inj_succ, <- !Z.add_1_r, !inject_Z_plus.
        unfold eff_return, raw_return. cbn [Z.eqb Pos.eqb].
        change (inject_Z 1) with 1. ring.
      * apply Z.eqb_neq in H1, H2. rewrite H1, H2. cbn [orb]. reflexivity.
Qed.

(** X20: with at least one trade the reported mean trade return is the
    weight times the win rate times TP, minus the loss rate times SL,
    minus the cost; and the linear P&L is the mean trade return times
    the trade count minus the cost charged on the FLAT expiries. *)
Theorem pnl_per_trade_from_win_rate
        (lib : FloatLib) (cfg : Config) (df : DataFrame)
        (tp_frac sl_frac : Q) (horizon_days : Z) (start_equity : Q)
        (r : SimulationResult) :
  simulate_system_for_metrics lib cfg df tp_frac sl_frac horizon_days
                              start_equity
  = Py.Returned (Some r) ->
  (0 < r_trades r)%Z ->
  let w := 1 / inject_Z (clamp_horizon horizon_days) in
  let outs := run_resolutions cfg df tp_frac sl_frac horizon_days in
  r_pnl_per_trade r
  == w * (tp_frac * r_label1_ratio r
          - sl_frac * (1 - r_label1_ratio r)
          - TOTAL_COST_FRAC cfg)
  /\ r_pnl_linear r
     == r_pnl_per_trade r * inject_Z (r_trades r)
        - w * TOTAL_COST_FRAC cfg * inject_Z (count_flat outs).
Proof.
  intros Hr Hpos w outs.
  open_result Hr.
  cbn [r_pnl_per_trade r_label1_ratio r_pnl_linear r_trades] in *.
  fold w outs in Hpos |- *.
  pose proof (fold_close_mean cfg w tp_frac sl_frac outs
                (init_acc start_equity) 0) as Hm.
  cbv zeta in Hm.
  assert (Hinit : (0 <= trades (init_acc start_equity))%Z) by (simpl; lia).
  assert (Hinit' : mean_r (init_acc start_equity)
                   * inject_Z (trades (init_acc start_equity)) == 0)
    by (simpl; ring).
  specialize (Hm Hinit Hinit').
  rewrite traded_returns_by_kind in Hm.
  rewrite fold_close_pnl, fold_close_label1, fold_close_trades in *.
  cbn [init_acc trades label1_count pnl_linear_sum] in *.
  rewrite !Z.add_0_l in *.
  rewrite sum_eff_by_kind by apply resolutions_codes.
  pose proof (count_split outs (resolutions_codes _ _ _ _ _ _ _)) as Hsplit.
  pose proof (count_tp_sl_split outs) as Hkinds.
  apply Z.ltb_lt in Hpos. rewrite Hpos.
  apply Z.ltb_lt in Hpos.
  set (m := mean_r (fold_left (close_position cfg w tp_frac sl_frac) outs
                              (init_acc start_equity))) in *.
  assert (HT : 0 < inject_Z (count_tp_sl outs))
    by (unfold Qlt; simpl; lia).
  assert (Hk : inject_Z (count_sl outs)
               == inject_Z (count_tp_sl outs) - inject_Z (count_tp outs)).
  { rewrite Hkinds, inject_Z_plus. ring. }
  assert (Hl : inject_Z (Z.of_nat (List.length outs))
               == inject_Z (count_tp_sl outs) + inject_Z (count_flat outs)).
  { rewrite Hsplit, inject_Z_plus. reflexivity. }
  rewrite Hk in Hm. split.
  - apply Qmult_inj_r with (z := inject_Z (count_tp_sl outs)); [lra |].
    rewrite Hm. field. lra.
  - rewrite Hm, Hk, Hl. ring.
Qed.

(** X20 on the run of [swing4]. *)
Lemma pnl_per_trade_from_win_rate_witness :
  (0 < r_trades swing4_result)%Z
  /\ r_pnl_per_trade swing4_result
     == 1 / inject_Z (clamp_horizon 1)
        * ((1 # 10) * r_label1_ratio swing4_result
           - (1 # 10) * (1 - r_label1_ratio swing4_result)
           - TOTAL_COST_FRAC default_config).
Proof.
  assert (H : (0 < r_trades swing4_result)%Z) by reflexivity.
  split; [exact H |].
  exact (proj1 (pnl_per_trade_from_win_rate example_lib default_config
                  swing4 (1 # 10) (1 # 10) 1 100000 swing4_result
                  swing4_run H)).
Defined.

(** ** The exported trades *)

Lemma map_iloc_seq (df : DataFrame) :
  map (iloc df) (seq 0 (List.length df)) = df.
Proof.
  unfold iloc. induction df as [| b df IH]; [reflexivity |].
  cbn [Datatypes.length seq map nth]. f_equal.
  rewrite <- seq_shift, map_map. exact IH.
Qed.

Lemma combine_map_map {A B C : Type} (f : A -> B) (g : A -> C) (l : list A) :
  combine (map f l) (map g l) = map (fun x => (f x, g x)) l.
Proof.
  induction l as [| x l IH]; [reflexivity |]. cbn [map combine].
  now rewrite IH.
Qed.

(** Looking a date up in a series with distinct dates gives the value
    at the position of the date. *)
Lemma series_get_at {A : Type} (D : A -> Z) (G : A -> Q) (l : list A)
      (x : A) :
  NoDup (map D l) -> In x l ->
  series_get (map D l) (map G l) (D x) = Some (G x).
Proof.
  induction l as [| y l IH]; intros Hnd Hin; [contradiction |].
  cbn [map series_get]. inversion Hnd as [| ? ? Hy Hl]; subst.
  destruct (D y =? D x)%Z eqn:E.
  - apply Z.eqb_eq in E. destruct Hin as [-> | Hin]; [reflexivity |].
    exfalso. apply Hy. rewrite E. now apply in_map.
  - destruct Hin as [-> | Hin]; [rewrite Z.eqb_refl in E; discriminate |].
    now apply IH.
Qed.

Lemma seq_from_origin (k : nat) :
  (1 <= k)%nat -> seq 0 k = 0%nat :: Py.range 1 k.
Proof.
  intro Hk. unfold Py.range. destruct k as [| m]; [lia |].
  cbn [seq]. now replace (S m - 1)%nat with m by lia.
Qed.

Section ExportedTrades.

Variable cfg : Config.
Variable df : DataFrame.
Variables tp_frac sl_frac : Q.
Variable horizon_days : Z.
Hypothesis distinct_dates : NoDup (map date df).

Let n := List.length df.
Let w := 1 / inject_Z (clamp_horizon horizon_days).
Let code := opening_day_code cfg df tp_frac sl_frac.
Let R (i : nat) : Q := 0 + eff_return cfg w tp_frac sl_frac (code i).
Let L (i : nat) : option string :=
  if (code i =? 1)%Z then Some "TP"%string
  else if (code i =? -1)%Z then Some "SL"%string
  else if (Z.min (Z.of_nat i + clamp_horizon horizon_days - 1)
                 (Z.of_nat n - 1) <=? Z.of_nat i)%Z
       then Some "FLAT"%string
       else None.
Let D (i : nat) : Z := date (iloc df i).
Let realized : list Q := 0 :: map R (Py.range 1 n).

(** The entry written for one item of the label series. *)
Let entry (item : Z * option string) : list TradeRecord :=
  let '(d, scen_value) := item in
  match scen_value with
  | Some s =>
      if String.eqb s "TP" || String.eqb s "SL" then
        match series_get (map date df) realized d with
        | Some pnl => [mkTrade d pnl (pnl * 100) s]
        | None => []
        end
      else []
  | None => []
  end.

Lemma realized_at (i : nat) :
  (1 <= i < n)%nat ->
  series_get (map date df) realized (D i) = Some (R i).
Proof.
  intro Hi.
  set (G := fun j => match j with O => 0 | S _ => R j end).
  assert (Hidx : seq 0 n = 0%nat :: Py.range 1 n).
  { apply seq_from_origin. lia. }
  assert (Hdates : map date df = map D (seq 0 n)).
  { unfold D. rewrite <- (map_map (iloc df) date). unfold n.
    now rewrite map_iloc_seq. }
  assert (Hreal : realized = map G (seq 0 n)).
  { unfold realized. rewrite Hidx. cbn [map G]. f_equal. apply map_ext_in.
    intros j Hj. apply in_range in Hj. destruct j; [lia | reflexivity]. }
  rewrite Hreal, Hdates.
  rewrite (series_get_at D G (seq 0 n) i).
  - destruct i; [lia | reflexivity].
  - rewrite <- Hdates. exact distinct_dates.
  - apply in_seq. lia.
Qed.

Lemma entry_of_bar (i : nat) :
  (1 <= i < n)%nat ->
  entry (D i, L i)
  = if (code i =? 1)%Z || (code i =? -1)%Z
    then [mkTrade (D i) (R i) (R i * 100)
                  (if (code i =? 1)%Z then "TP" else "SL")]
    else [].
Proof.
  intro Hi. unfold entry, L.
  destruct (code i =? 1)%Z.
  - change (String.eqb "TP" "TP" || String.eqb "TP" "SL") with true.
    cbv iota. now rewrite realized_at by exact Hi.
  - destruct (code i =? -1)%Z.
    + change (String.eqb "SL" "TP" || String.eqb "SL" "SL") with true.
      cbv iota. now rewrite realized_at by exact Hi.
    + cbn [orb]. destruct (_ <=? _)%Z; reflexivity.
Qed.

Lemma entries_of_bars (l : list nat) :
  (forall i, In i l -> (1 <= i < n)%nat) ->
  flat_map (fun i => entry (D i, L i)) l
  = map (fun i => mkTrade (D i) (R i) (R i * 100)
                          (if (code i =? 1)%Z then "TP" else "SL"))
        (filter (fun i => (code i =? 1)%Z || (code i =? -1)%Z) l).
Proof.
  induction l as [| i l IH]; intro Hl; [reflexivity |].
  cbn [flat_map filter].
  rewrite IH by (intros j Hj; apply Hl; now right).
  rewrite entry_of_bar by (apply Hl; now left).
  destruct ((code i =? 1)%Z || (code i =? -1)%Z); reflexivity.
Qed.

Lemma best_system_trades_spec :
  (3 <= n)%nat ->
  best_system_trades cfg df tp_frac sl_frac horizon_days
  = Some (map (fun i => mkTrade (D i) (R i) (R i * 100)
                                (if (code i =? 1)%Z then "TP" else "SL"))
              (filter (fun i => (code i =? 1)%Z || (code i =? -1)%Z)
                      (Py.range 1 n))).
Proof.
  intro Hn. unfold best_system_trades.
  rewrite simulate_daily_codes by exact Hn. fold n w code.
  change (map (fun i => 0 + eff_return cfg w tp_frac sl_frac (code i))
              (Py.range 1 n))
    with (map R (Py.range 1 n)).
  change (fun i : nat =>
            if (code i =? 1)%Z then Some "TP"%string
            else if (code i =? -1)%Z then Some "SL"%string
            else if (Z.min (Z.of_nat i + clamp_horizon horizon_days - 1)
                           (Z.of_nat n - 1) <=? Z.of_nat i)%Z
                 then Some "FLAT"%string else None)
    with L.
  cbv iota. f_equal.
  change (flat_map entry
                   (combine (map date df)
                            (Some ""%string :: map L (Py.range 1 n)))
          = map (fun i => mkTrade (D i) (R i) (R i * 100)
                                  (if (code i =? 1)%Z then "TP" else "SL"))
                (filter (fun i => (code i =? 1)%Z || (code i =? -1)%Z)
                        (Py.range 1 n))).
  assert (Hidx : seq 0 n = 0%nat :: Py.range 1 n).
  { apply seq_from_origin. lia. }
  assert (Hdates : map date df = D 0%nat :: map D (Py.range 1 n)).
  { rewrite <- (map_iloc_seq df) at 1. fold n. rewrite Hidx, map_map.
    reflexivity. }
  rewrite Hdates. cbn [combine flat_map].
  assert (H0 : entry (D 0%nat, Some ""%string) = []) by reflexivity.
  rewrite H0. cbn [app].
  rewrite combine_map_map, flat_map_concat_map, map_map,
    <- flat_map_concat_map.
  apply entries_of_bars. intros i Hi. apply in_range in Hi. lia.
Qed.

End ExportedTrades.

(** X21: on a frame of at least three bars with distinct dates the
    exported trades are, in date order, exactly the bars whose own
    position hits TP or SL on its opening bar, each with that bar's net
    return; their number is the number of such bars. *)
Theorem exported_trades_are_opening_day_hits
        (cfg : Config) (df : DataFrame) (tp_frac sl_frac : Q)
        (horizon_days : Z) :
  (3 <= List.length df)%nat -> NoDup (map date df) ->
  let n := List.length df in
  let w := 1 / inject_Z (clamp_horizon horizon_days) in
  let code := opening_day_code cfg df tp_frac sl_frac in
  let hits := filter (fun i => (code i =? 1)%Z || (code i =? -1)%Z)
                     (Py.range 1 n) in
  best_system_trades cfg df tp_frac sl_frac horizon_days
  = Some (map (fun i =>
                 let pnl := 0 + eff_return cfg w tp_frac sl_frac (code i) in
                 mkTrade (date (iloc df i)) pnl (pnl * 100)
                         (if (code i =? 1)%Z then "TP" else "SL"))
              hits)
  /\ Z.of_nat (List.length hits) = count_tp_sl (map code (Py.range 1 n)).
Proof.
  intros Hn Hnd n w code hits. split.
  - now apply best_system_trades_spec.
  - unfold hits, count_tp_sl. f_equal.
    induction (Py.range 1 n) as [| i l IH]; [reflexivity |].
    cbn [map filter]. destruct ((code i =? 1)%Z || (code i =? -1)%Z);
      cbn [Datatypes.length]; now rewrite IH.
Qed.

Lemma exported_trades_are_opening_day_hits_witness :
  (3 <= List.length swing4)%nat
  /\ NoDup (map date swing4)
  /\ (let code := opening_day_code default_config swing4 (1 # 10) (1 # 10) in
      let hits := filter (fun i => (code i =? 1)%Z || (code i =? -1)%Z)
                         (Py.range 1 (List.length swing4)) in
      best_system_trades default_config swing4 (1 # 10) (1 # 10) 5
      = Some (map (fun i =>
                     let pnl :=
                       0 + eff_return default_config
                                      (1 / inject_Z (clamp_horizon 5))
                                      (1 # 10) (1 # 10) (code i) in
                     mkTrade (date (iloc swing4 i)) pnl (pnl * 100)
                             (if (code i =? 1)%Z then "TP" else "SL"))
                  hits)
      /\ Z.of_nat (List.length hits)
         = count_tp_sl (map code (Py.range 1 (List.length swing4)))).
Proof.
  assert (Hn : (3 <= List.length swing4)%nat) by (simpl; lia).
  assert (Hd : NoDup (map date swing4)).
  { simpl. repeat constructor; simpl; intuition lia. }
  split; [exact Hn |]. split; [exact Hd |].
  exact (exported_trades_are_opening_day_hits
           default_config swing4 (1 # 10) (1 # 10) 5%Z Hn Hd).
Defined.
